(** * Deep Lake vector store: filtering utilities and the search facade

    A shallow embedding of
      - deeplake/core/vectorstore/vector_search/filter/filter.py
      - deeplake/core/vectorstore/deeplake_vectorstore.py
    Python values are modelled by small inductive types, exceptions by an
    error result, and the two side effects of the code (warnings and logger
    output) by an event log threaded through a state-and-error monad. *)

From Stdlib Require Import ZArith List String Ascii Bool Lia QArith.
From Stdlib Require Import Numbers.DecimalString.
Import ListNotations.

Local Open Scope nat_scope.
Local Open Scope list_scope.
Local Open Scope string_scope.

(** ** Python values *)

(** Scalar values as they occur as metadata values, ids, texts and filter
    values. *)
Inductive atom : Type :=
| ANone
| ABool (b : bool)
| AInt (z : Z)
| AStr (s : string).

(** [{key: value}] : a Python dict with string keys, in insertion order. *)
Definition mapping : Type := list (string * atom).

(** The structured value of one cell, [x[tensor].data()["value"]]: a plain
    value (text and ids columns) or a JSON object (metadata columns). *)
Inductive structured : Type :=
| SAtom (a : atom)
| SMap (m : mapping).

(** A row handed to a filter predicate: tensor name to cell value. *)
Definition row : Type := list (string * structured).

(** The [filter] argument, [Optional[Union[Dict, Callable]]]: absent, a dict
    [{tensor: {key: value}}], or a function object (named by its identity). *)
Inductive filter_value : Type :=
| FNone
| FDict (d : list (string * mapping))
| FCallable (f : nat).

(** Exceptions raised by the code, with their message where the code gives
    one. [TensorDoesNotExistError] is the engine's, for a row asked for a
    tensor it does not have; [External] stands for any failure of a
    collaborator outside these two files. *)
Inductive exn : Type :=
| KeyError (key : string)
| TypeError
| AttributeError (attr : string)
| ValueError (msg : string)
| NotImplementedError (msg : string)
| UnboundLocalError (var : string)
| TensorDoesNotExistError (tensor : string)
| External (msg : string).

Inductive res (A : Type) : Type :=
| Ok (a : A)
| Err (e : exn).
Arguments Ok {A} a.
Arguments Err {A} e.

Definition rbind {A B : Type} (r : res A) (f : A -> res B) : res B :=
  match r with
  | Ok a => f a
  | Err e => Err e
  end.

(** ** Strings: the pieces of Python's [str] the code uses *)

(** [s[:-n]] for [n > 0]: the string without its last [n] characters, empty
    when it has no more than [n]. *)
Definition drop_last (n : nat) (s : string) : string :=
  substring 0 (String.length s - n) s.

(** [q in s] on two strings: substring test. *)
Fixpoint str_contains (q s : string) : bool :=
  if prefix q s then true
  else match s with
       | EmptyString => false
       | String _ s' => str_contains q s'
       end.

Definition lower_ascii (c : ascii) : ascii :=
  let n := nat_of_ascii c in
  if andb (Nat.leb 65 n) (Nat.leb n 90) then ascii_of_nat (n + 32) else c.

(** [s.lower()] on ASCII text. *)
Fixpoint lower (s : string) : string :=
  match s with
  | EmptyString => EmptyString
  | String c s' => String (lower_ascii c) (lower s')
  end.

Definition Z_to_string (z : Z) : string :=
  NilZero.string_of_int (Z.to_int z).

(** [f"{value}"] : the plain textual form of a scalar. *)
Definition py_format (a : atom) : string :=
  match a with
  | ANone => "None"
  | ABool true => "True"
  | ABool false => "False"
  | AInt z => Z_to_string z
  | AStr s => s
  end.

(** [type(value) == str] *)
Definition is_str (a : atom) : bool :=
  match a with
  | AStr _ => true
  | _ => false
  end.

(** ** Equality, membership and truth of Python values *)

Definition Z_of_bool (b : bool) : Z := if b then 1%Z else 0%Z.

(** [a == b] on scalars; [bool] is a subclass of [int], so [True == 1]. *)
Definition atom_eq (a b : atom) : bool :=
  match a, b with
  | ANone, ANone => true
  | ABool x, ABool y => Bool.eqb x y
  | ABool x, AInt y => Z.eqb (Z_of_bool x) y
  | AInt x, ABool y => Z.eqb x (Z_of_bool y)
  | AInt x, AInt y => Z.eqb x y
  | AStr x, AStr y => String.eqb x y
  | _, _ => false
  end.

(** [d[k]] restricted to a result: first (and, in a dict, only) entry. *)
Fixpoint lookup {V : Type} (k : string) (d : list (string * V)) : option V :=
  match d with
  | [] => None
  | (k', v) :: d' => if String.eqb k k' then Some v else lookup k d'
  end.

Definition keys {V : Type} (d : list (string * V)) : list string :=
  map fst d.

(** [d[k]] on a dict raises [KeyError] on a missing key. *)
Definition getitem {V : Type} (k : string) (d : list (string * V)) : res V :=
  match lookup k d with
  | Some v => Ok v
  | None => Err (KeyError k)
  end.

(** [x[tensor].data()["value"]] on a row of the engine: a row that has no
    such tensor raises the engine's [TensorDoesNotExistError]. *)
Definition row_getitem (tensor : string) (x : row) : res structured :=
  match lookup tensor x with
  | Some cell => Ok cell
  | None => Err (TensorDoesNotExistError tensor)
  end.

(** [len(x)] on a row: the engine's [filter] hands the predicate the view of
    one sample of the dataset, and the length of such a view is 1, whatever
    tensors it has. *)
Definition len (x : row) : nat := 1.

(** [k in metadata] for a string [k]: key membership in a dict, substring
    test in a string, [TypeError] on a value that is no container. *)
Definition key_in (k : string) (metadata : structured) : res bool :=
  match metadata with
  | SMap m => Ok (match lookup k m with Some _ => true | None => false end)
  | SAtom (AStr s) => Ok (str_contains k s)
  | SAtom _ => Err TypeError
  end.

(** [metadata[k]] for a string [k]: a string accepts integer indices only. *)
Definition subscript (metadata : structured) (k : string) : res atom :=
  match metadata with
  | SMap m => getitem k m
  | SAtom _ => Err TypeError
  end.

(** [value in ids] where [ids] is a list of scalars: a dict equals none. *)
Definition in_list (value : structured) (ids : list atom) : bool :=
  match value with
  | SAtom a => existsb (atom_eq a) ids
  | SMap _ => false
  end.

(** [query in value] as [exact_text_search] uses it. *)
Definition query_in (query : atom) (value : structured) : res bool :=
  match value with
  | SAtom (AStr s) =>
      match query with
      | AStr q => Ok (str_contains q s)
      | _ => Err TypeError
      end
  | SMap m =>
      match query with
      | AStr q => Ok (match lookup q m with Some _ => true | None => false end)
      | _ => Ok false
      end
  | SAtom _ => Err TypeError
  end.

Definition truthy_filter (f : filter_value) : bool :=
  match f with
  | FNone => false
  | FDict [] => false
  | FDict (_ :: _) => true
  | FCallable _ => true
  end.

(** Truth of an [Optional[List[...]]]. *)
Definition truthy_list {A : Type} (l : option (list A)) : bool :=
  match l with
  | None => false
  | Some [] => false
  | Some (_ :: _) => true
  end.

(** Truth of an [Optional[str]]. *)
Definition truthy_str (s : option string) : bool :=
  match s with
  | None => false
  | Some "" => false
  | Some _ => true
  end.

(** The value a filter predicate returns: [dp_filter_python] returns either
    the list [[1] * len(x)] or a [bool]. *)
Inductive predicate_value : Type :=
| PList (l : list Z)
| PBool (b : bool).

Definition truthy (r : predicate_value) : bool :=
  match r with
  | PList [] => false
  | PList (_ :: _) => true
  | PBool b => b
  end.

(** ** Effects: warnings and logger output *)

Inductive event : Type :=
| Warned (msg : string)      (* always_warn(msg) *)
| Logged (msg : string).     (* logger.warning(msg) *)

(** A computation that may raise and may append to the event log. *)
Definition M (A : Type) : Type := list event -> res A * list event.

Definition ret {A : Type} (a : A) : M A := fun w => (Ok a, w).

Definition raise {A : Type} (e : exn) : M A := fun w => (Err e, w).

Definition bind {A B : Type} (c : M A) (f : A -> M B) : M B :=
  fun w =>
    match c w with
    | (Ok a, w') => f a w'
    | (Err e, w') => (Err e, w')
    end.

Definition lift {A : Type} (r : res A) : M A := fun w => (r, w).

Definition emit (e : event) : M unit := fun w => (Ok tt, (w ++ [e])%list).

Declare Scope monad_scope.
Delimit Scope monad_scope with monad.
Notation "x <- c ;; k" := (bind c (fun x => k))
  (at level 61, c at next level, right associativity) : monad_scope.
Notation "c ;;; k" := (bind c (fun _ => k))
  (at level 61, right associativity) : monad_scope.
Notation "x <~ r ;; k" := (rbind r (fun x => k))
  (at level 61, r at next level, right associativity) : monad_scope.
Local Open Scope monad_scope.

(** ** The backing dataset *)

(** Modelled from the spec: the backing dataset and its views are code of
    the storage engine, outside these files. A view is "a subset of row
    indices, order-preserving": the rows it holds, each with its sample
    index. *)
Definition view : Type := list (nat * row).

Definition sample_indices (v : view) : list nat := map fst v.

(** Modelled from the spec: [view.filter(f)], the engine's "generic
    row-predicate filtering", keeps the rows on which the predicate is true,
    in order; an exception of the predicate ends the filtering. *)
Fixpoint view_filter (f : row -> res bool) (v : view) : res view :=
  match v with
  | [] => Ok []
  | (i, x) :: v' =>
      keep <~ f x ;;
      rest <~ view_filter f v' ;;
      Ok (if keep then (i, x) :: rest else rest)
  end.

(** What the two files take from the rest of the library and from Python:
    calling a user's function object, the textual form of a filter, and the
    collaborators of [search]. *)
Class Backend : Type := {
  embedding_t : Type;
  embeddings_t : Type;
  runtime_t : Type;
  result_t : Type;
  (** calling the function object [f] on a row, and the truth of its result *)
  udf : nat -> row -> res bool;
  (** [f"{filter}"] *)
  filter_repr : filter_value -> string;
  (** [dataset_utils.get_embedding(embedding, prompt, embedding_function)] *)
  get_embedding : option embedding_t -> option string -> option nat -> M embedding_t;
  (** [utils.get_runtime_from_exec_option(exec_option)] *)
  get_runtime_from_exec_option : string -> M runtime_t;
  (** [dataset_utils.fetch_embeddings(exec_option, view, logger, embedding_tensor)] *)
  fetch_embeddings : string -> view -> string -> M embeddings_t;
  (** [vectorstore.python_vector_search(deeplake_dataset, query_embedding,
      embeddings, distance_metric, k)] *)
  python_vector_search : view -> embedding_t -> embeddings_t -> string -> Z -> M result_t;
  (** [vectorstore.vector_search(query_embedding, distance_metric,
      deeplake_dataset, k, tql_string, tql_filter, embedding_tensor, runtime)] *)
  vector_search : embedding_t -> string -> view -> Z -> option string -> string ->
                  string -> runtime_t -> M result_t;
  (** [utils.check_indra_installation(exec_option, indra_installed)] *)
  check_indra_installation : string -> bool -> M unit;
  _INDRA_INSTALLED : bool
}.

(** ** filter.py *)

(** [all(k in metadata and v == metadata[k] for k, v in items)] *)
Fixpoint all_items (metadata : structured) (items : mapping) : res bool :=
  match items with
  | [] => Ok true
  | (k, v) :: rest =>
      present <~ key_in k metadata ;;
      holds <~ (if present : bool
                then w <~ subscript metadata k ;; Ok (atom_eq v w)
                else Ok false) ;;
      if holds : bool then all_items metadata rest else Ok false
  end.

(** The loop of [dp_filter_python] over [filter.keys()]. *)
Fixpoint dp_filter_loop (x : row) (filter : list (string * mapping))
    (tensors : list string) (result : predicate_value) : res predicate_value :=
  match tensors with
  | [] => Ok result
  | tensor :: rest =>
      metadata <~ row_getitem tensor x ;;
      result' <~ (if truthy result
                  then items <~ getitem tensor filter ;;
                       b <~ all_items metadata items ;;
                       Ok (PBool b)
                  else Ok result) ;;
      dp_filter_loop x filter rest result'
  end.

(** The result starts as [[1] * len(x)]. A filter that is no dict has no
    [keys]. *)
Definition dp_filter_python (x : row) (filter : filter_value) : res predicate_value :=
  let result := PList (repeat 1%Z (len x)) in
  match filter with
  | FDict d => dp_filter_loop x d (keys d) result
  | _ => Err (AttributeError "keys")
  end.

(** [partial(dp_filter_python, filter=filter)] as the engine uses it. *)
Definition dp_predicate (filter : filter_value) (x : row) : res bool :=
  r <~ dp_filter_python x filter ;; Ok (truthy r).

Definition attribute_based_filtering_python `{Backend} (v : view)
    (filter : filter_value) : res view :=
  match filter with
  | FNone => Ok v
  | FDict d => view_filter (dp_predicate (FDict d)) v
  | FCallable f => view_filter (udf f) v
  end.

(** What is passed in the [logger] position: a logger, or any other object
    (none of which has a [warning] method). *)
Inductive logger_arg : Type :=
| Logger
| NotLogger (f : filter_value).

Definition logger_warning (logger : logger_arg) (msg : string) : M unit :=
  match logger with
  | Logger => emit (Logged msg)
  | NotLogger _ => raise (AttributeError "warning")
  end.

(** One step of the inner loop of [attribute_based_filtering_tql]. *)
Definition tql_pair (tensor : string) (tql_filter : string) (kv : string * atom) : string :=
  let '(key, value) := kv in
  let val_str := if is_str value then "'" ++ py_format value ++ "'" else py_format value in
  tql_filter ++ (tensor ++ "['" ++ key ++ "'] == " ++ val_str ++ " and ").

Fixpoint tql_loop (filter : list (string * mapping)) (tensors : list string)
    (tql_filter : string) : res string :=
  match tensors with
  | [] => Ok tql_filter
  | tensor :: rest =>
      items <~ getitem tensor filter ;;
      tql_loop filter rest (fold_left (tql_pair tensor) items tql_filter)
  end.

Definition attribute_based_filtering_tql (v : view) (logger : logger_arg)
    (filter : filter_value) (debug_mode : bool) : M (view * string) :=
  tql_filter <- lift (match filter with
                      | FDict d => s <~ tql_loop d (keys d) "" ;; Ok (drop_last 5 s)
                      | _ => Ok ""
                      end) ;;
  (if debug_mode
   then logger_warning logger ("Converted tql string is: '" ++ tql_filter ++ "'")
   else ret tt) ;;;
  ret (v, tql_filter).

Definition no_files_warning : string :=
  "Exact text search wasn't able to find any files. Try other search options like embedding search.".

Definition exact_text_search (v : view) (query : atom)
  : M (view * list Q * option (list nat)) :=
  v' <- lift (view_filter (fun x => cell <~ row_getitem "text" x ;; query_in query cell) v) ;;
  let scores := repeat (1 # 1)%Q (List.length v') in
  index <- (if Nat.eqb (List.length v') 0
            then emit (Warned no_files_warning) ;;; ret None
            else ret (Some (sample_indices v'))) ;;
  ret (v', scores, index).

(** [id not in filtered_ids] compares a requested id with row indices. *)
Definition get_ids_that_does_not_exist (ids : list atom) (filtered_ids : list nat) : string :=
  drop_last 2
    (fold_left
       (fun ids_that_doesnt_exist id =>
          if negb (existsb (fun i => atom_eq id (AInt (Z.of_nat i))) filtered_ids)
          then ids_that_doesnt_exist ++ ("`" ++ py_format id ++ "`, ")
          else ids_that_doesnt_exist)
       ids "").

Definition get_id_indices (dataset : view) (ids : list atom) : res (list nat) :=
  v <~ view_filter (fun x => cell <~ row_getitem "ids" x ;; Ok (in_list cell ids)) dataset ;;
  let filtered_ids := sample_indices v in
  if negb (Nat.eqb (List.length filtered_ids) (List.length ids))
  then
    let ids_that_doesnt_exist := get_ids_that_does_not_exist ids filtered_ids in
    Err (ValueError ("The following ids: " ++ ids_that_doesnt_exist
                     ++ " does not exist in the dataset"))
  else Ok filtered_ids.

Definition get_filtered_ids `{Backend} (dataset : view) (filter : filter_value)
  : res (list nat) :=
  v <~ view_filter (dp_predicate filter) dataset ;;
  let filtered_ids := sample_indices v in
  if Nat.eqb (List.length filtered_ids) 0
  then Err (ValueError (filter_repr filter ++ " does not exist in the dataset."))
  else Ok filtered_ids.

Definition get_converted_ids `{Backend} (dataset : view) (filter : filter_value)
    (ids : option (list atom)) : res (list nat) :=
  if truthy_list ids && truthy_filter filter
  then Err (ValueError "Either filter or ids should be specified.")
  else
    match ids with
    | Some (id :: ids') => get_id_indices dataset (id :: ids')
    | _ => get_filtered_ids dataset filter
    end.

(** ** deeplake_vectorstore.py *)

(** Classes of the values a [filter] argument can hold, and the objects
    [type(filter)] is compared with: a class, or the special form
    [typing.Callable], which is no class. *)
Inductive pyclass : Type :=
| NoneType
| dict_class
| function_class.

Inductive type_object : Type :=
| Class (c : pyclass)
| Callable.

Definition pyclass_eqb (a b : pyclass) : bool :=
  match a, b with
  | NoneType, NoneType => true
  | dict_class, dict_class => true
  | function_class, function_class => true
  | _, _ => false
  end.

(** [a == b] on these objects is identity. *)
Definition type_object_eqb (a b : type_object) : bool :=
  match a, b with
  | Class c, Class c' => pyclass_eqb c c'
  | Callable, Callable => true
  | _, _ => false
  end.

(** [type(filter)] *)
Definition type_of (f : filter_value) : type_object :=
  match f with
  | FNone => Class NoneType
  | FDict _ => Class dict_class
  | FCallable _ => Class function_class
  end.

(** A parameter with a default value: [None] is a call that leaves it out. *)
Definition or_default {A : Type} (arg : option A) (default : A) : A :=
  match arg with
  | Some a => a
  | None => default
  end.

Record DeepLakeVectorStore : Type := {
  ingestion_batch_size : Z;
  num_workers : Z;
  dataset : view;
  embedding_function : option nat;
  _exec_option : string;
  verbose : bool
}.

(** [__init__]: [dataset_utils.create_or_load_dataset] is outside these
    files, its result is taken as [loaded]; the other fields are the
    arguments, with their defaults. *)
Definition init (loaded : view) (embedding_function : option nat)
    (ingestion_batch_size num_workers : option Z) (exec_option : option string)
    (verbose : option bool) : DeepLakeVectorStore :=
  {| ingestion_batch_size := or_default ingestion_batch_size 1024%Z;
     num_workers := or_default num_workers 0%Z;
     dataset := loaded;
     embedding_function := embedding_function;
     _exec_option := or_default exec_option "python";
     verbose := or_default verbose false |}.

(** First statement of [search]: [exec_option = exec_option or
    self._exec_option], after the parameter's default ["python"]. *)
Definition resolve_exec_option (self : DeepLakeVectorStore)
    (exec_option : option (option string)) : string :=
  let exec_option := or_default exec_option (Some "python") in
  match exec_option with
  | Some s => if truthy_str (Some s) then s else _exec_option self
  | None => _exec_option self
  end.

Definition valid_exec_option (exec_option : string) : bool :=
  existsb (String.eqb exec_option) ["python"; "compute_engine"; "tensor_db"].

(** Reading a local variable that no executed statement has assigned. *)
Definition read_local {A : Type} (name : string) (value : option A) : M A :=
  match value with
  | Some a => ret a
  | None => raise (UnboundLocalError name)
  end.

Definition atom_of_prompt (prompt : option string) : atom :=
  match prompt with
  | Some s => AStr s
  | None => ANone
  end.

Definition search `{Backend} (self : DeepLakeVectorStore)
    (prompt : option string) (embedding_function : option nat)
    (embedding : option embedding_t) (k : Z) (distance_metric : string)
    (query : option string) (filter : filter_value)
    (exec_option : option (option string)) (embedding_tensor : string)
  : M result_t :=
  let exec_option := resolve_exec_option self exec_option in
  if negb (valid_exec_option exec_option)
  then raise (ValueError
    "Invalid `exec_option` it should be either `python`, `compute_engine` or `tensor_db`.")
  else
    (* [query_emb] is assigned in the second branch only *)
    query_emb <- (match embedding_function, embedding with
                  | None, None =>
                      exact_text_search (dataset self) (atom_of_prompt prompt) ;;;
                      ret None
                  | _, _ =>
                      e <- get_embedding embedding prompt embedding_function ;;
                      ret (Some e)
                  end) ;;
    runtime <- get_runtime_from_exec_option exec_option ;;
    if String.eqb exec_option "python"
    then
      match query with
      | Some _ => raise (NotImplementedError
          ("User-specified TQL queries are not support for exec_option="
           ++ exec_option ++ " "))
      | None =>
          v <- lift (attribute_based_filtering_python (dataset self) filter) ;;
          embeddings <- fetch_embeddings exec_option v embedding_tensor ;;
          query_embedding <- read_local "query_emb" query_emb ;;
          python_vector_search v query_embedding embeddings (lower distance_metric) k
      end
    else
      if type_object_eqb (type_of filter) Callable
      then raise (NotImplementedError
        ("UDF filter function are not supported with exec_option=" ++ exec_option))
      else if truthy_str query && truthy_filter filter
      then raise (NotImplementedError
        "query and filter parameters cannot be specified simultaneously.")
      else
        check_indra_installation exec_option _INDRA_INSTALLED ;;;
        (* the filter is passed in the [logger] position *)
        vf <- attribute_based_filtering_tql (dataset self) (NotLogger filter) FNone false ;;
        let '(v, tql_filter) := vf in
        query_embedding <- read_local "query_emb" query_emb ;;
        vector_search query_embedding (lower distance_metric) v k query tql_filter
                      embedding_tensor runtime.

(** ** The specification's wording, for comparison *)

(** "string values are single-quoted and non-string values are rendered as
    their plain textual form" *)
Definition spec_literal (value : atom) : string :=
  match value with
  | AStr s => "'" ++ s ++ "'"
  | other => py_format other
  end.

(** "[<tensor>['<key>'] == <literal> and ]" *)
Definition spec_clause (tensor : string) (kv : string * atom) : string :=
  tensor ++ "['" ++ fst kv ++ "'] == " ++ spec_literal (snd kv) ++ " and ".

(** "for every tensor, for every key/value pair, appending ...; after all
    pairs, the trailing [and] (5 characters) is stripped" *)
Definition spec_tql_fragment (filter : list (string * mapping)) : string :=
  drop_last 5
    (String.concat ""
       (flat_map (fun tm => map (spec_clause (fst tm)) (snd tm)) filter)).

(** "for every named tensor ... every listed key to be present with an equal
    value ... (logical AND across tensors and keys)" *)
Definition spec_key_holds (metadata : structured) (kv : string * atom) : bool :=
  match metadata with
  | SMap m =>
      match lookup (fst kv) m with
      | Some w => atom_eq (snd kv) w
      | None => false
      end
  | SAtom _ => false
  end.

Definition spec_row_matches (x : row) (filter : list (string * mapping)) : bool :=
  forallb
    (fun tm =>
       match lookup (fst tm) x with
       | Some metadata => forallb (spec_key_holds metadata) (snd tm)
       | None => false
       end)
    filter.

(** The rows of a view whose text holds the query. *)
Definition text_matches (q : string) (x : row) : bool :=
  match lookup "text" x with
  | Some (SAtom (AStr s)) => str_contains q s
  | _ => false
  end.

Definition has_text (x : row) : Prop :=
  exists s, lookup "text" x = Some (SAtom (AStr s)).

(** The tensors a filter names hold JSON objects in the row. *)
Definition cells_are_maps (x : row) (d : list (string * mapping)) : Prop :=
  forall t items, In (t, items) d -> exists m, lookup t x = Some (SMap m).

(** The exception class of the errors [get_converted_ids] words itself. *)
Definition is_ValueError (e : exn) : bool :=
  match e with
  | ValueError _ => true
  | _ => false
  end.

(** ** A test double for the collaborators: everything succeeds. *)
Definition null_backend : Backend :=
  {| embedding_t := unit;
     embeddings_t := unit;
     runtime_t := unit;
     result_t := unit;
     udf := fun _ _ => Ok true;
     filter_repr := fun _ => "<filter>";
     get_embedding := fun _ _ _ => ret tt;
     get_runtime_from_exec_option := fun _ => ret tt;
     fetch_embeddings := fun _ _ _ => ret tt;
     python_vector_search := fun _ _ _ _ _ => ret tt;
     vector_search := fun _ _ _ _ _ _ _ _ => ret tt;
     check_indra_installation := fun _ _ => ret tt;
     _INDRA_INSTALLED := true |}.

(** Rows used in the examples. *)
Definition id_row (id : string) : row := [("ids", SAtom (AStr id))].
Definition text_row (text : string) : row := [("text", SAtom (AStr text))].

(** ** delete *)

(** The collaborators of [delete] in [dataset_utils]. Both work on the
    dataset object the store holds; the dataset they leave behind is returned
    here. *)
Class Storage : Type := {
  (** [dataset_utils.delete_all_samples_if_specified(dataset, delete_all)] *)
  delete_all_samples_if_specified : view -> option bool -> M (view * bool);
  (** [dataset_utils.delete_and_commit(dataset, ids)] *)
  delete_and_commit : view -> list nat -> M view
}.

(** [self.dataset = ds] *)
Definition set_dataset (self : DeepLakeVectorStore) (ds : view) : DeepLakeVectorStore :=
  {| ingestion_batch_size := ingestion_batch_size self;
     num_workers := num_workers self;
     dataset := ds;
     embedding_function := embedding_function self;
     _exec_option := _exec_option self;
     verbose := verbose self |}.

(** [delete] returns the store as the call leaves it and the call's value. *)
Definition delete `{Backend} `{Storage} (self : DeepLakeVectorStore)
    (ids : option (list atom)) (filter : filter_value) (delete_all : option bool)
  : M (DeepLakeVectorStore * bool) :=
  r <- delete_all_samples_if_specified (dataset self) delete_all ;;
  let '(ds, dataset_deleted) := r in
  let self := set_dataset self ds in
  if dataset_deleted : bool
  then ret (self, true)
  else
    ids <- lift (get_converted_ids (dataset self) filter ids) ;;
    ds' <- delete_and_commit (dataset self) ids ;;
    ret (set_dataset self ds', true).

(** A test double for the storage: dropping everything empties the dataset,
    deleting by index removes the rows with these indices. *)
Definition null_storage : Storage :=
  {| delete_all_samples_if_specified :=
       fun ds delete_all =>
         match delete_all with
         | Some true => ret ([], true)
         | _ => ret (ds, false)
         end;
     delete_and_commit :=
       fun ds ids =>
         ret (filter (fun ix => negb (existsb (Nat.eqb (fst ix)) ids)) ds) |}.

(** ** Further notions used in the statements *)

Definition has_ids (x : row) : Prop :=
  exists cell, lookup "ids" x = Some cell.

(** The row's id is one of the requested ids. *)
Definition id_requested (ids : list atom) (x : row) : bool :=
  match lookup "ids" x with
  | Some cell => in_list cell ids
  | None => false
  end.

(** All clauses of a dict filter, in order. *)
Definition spec_clauses (filter : list (string * mapping)) : list string :=
  flat_map (fun tm => map (spec_clause (fst tm)) (snd tm)) filter.

(** The predicate's verdict on a row as a boolean: an exception keeps no row. *)
Definition holds (f : row -> res bool) (x : row) : bool :=
  match f x with
  | Ok true => true
  | _ => false
  end.

Definition metadata_row (k : string) (v : atom) : row :=
  [("metadata", SMap [(k, v)])].

(** ** Lemmas on strings and dicts *)

Lemma append_assoc (a b c : string) : (a ++ b) ++ c = a ++ (b ++ c).
Proof.
  induction a as [|ch a IH]; simpl; [reflexivity | now rewrite IH].
Qed.

Lemma append_empty_r (a : string) : a ++ "" = a.
Proof.
  induction a as [|ch a IH]; simpl; [reflexivity | now rewrite IH].
Qed.

Lemma concat_empty_app (l1 l2 : list string) :
  String.concat "" (l1 ++ l2) = String.concat "" l1 ++ String.concat "" l2.
Proof.
  induction l1 as [|s l1 IH]; simpl; [reflexivity|].
  destruct l1 as [|s' l1].
  - simpl. destruct l2; simpl; [now rewrite append_empty_r | reflexivity].
  - simpl in *. rewrite IH. now rewrite append_assoc.
Qed.

Lemma concat_empty_cons (s : string) (l : list string) :
  String.concat "" (s :: l) = s ++ String.concat "" l.
Proof.
  change (s :: l) with ([s] ++ l)%list. rewrite concat_empty_app. reflexivity.
Qed.

(** In a dict every entry is found under its key. *)
Lemma lookup_NoDup {V : Type} (d : list (string * V)) (k : string) (v : V) :
  NoDup (keys d) -> In (k, v) d -> lookup k d = Some v.
Proof.
  induction d as [|[k' v'] d IH]; simpl; intros Hnd Hin; [contradiction|].
  inversion Hnd as [|? ? Hnotin Hnd']; subst.
  destruct Hin as [Heq | Hin].
  - inversion Heq; subst. now rewrite String.eqb_refl.
  - destruct (String.eqb_spec k k') as [->|_].
    + exfalso. apply Hnotin. unfold keys. apply in_map_iff.
      exists (k', v). split; [reflexivity | assumption].
    + apply IH; assumption.
Qed.

Lemma tql_pair_clause (tensor : string) (acc : string) (kv : string * atom) :
  tql_pair tensor acc kv = acc ++ spec_clause tensor kv.
Proof.
  destruct kv as [key value]. unfold tql_pair, spec_clause. simpl.
  destruct value; reflexivity.
Qed.

Lemma fold_tql_pair (tensor : string) (items : mapping) (acc : string) :
  fold_left (tql_pair tensor) items acc
  = acc ++ String.concat "" (map (spec_clause tensor) items).
Proof.
  revert acc. induction items as [|kv items IH]; intros acc.
  - simpl. now rewrite append_empty_r.
  - cbn [fold_left map]. rewrite IH, tql_pair_clause, concat_empty_cons.
    now rewrite append_assoc.
Qed.

Lemma tql_loop_fragment (filter d : list (string * mapping)) (acc : string) :
  (forall t m, In (t, m) d -> lookup t filter = Some m) ->
  tql_loop filter (keys d) acc
  = Ok (acc ++ String.concat ""
                 (flat_map (fun tm => map (spec_clause (fst tm)) (snd tm)) d)).
Proof.
  revert acc. induction d as [|[t m] d IH]; intros acc Hfound.
  - simpl. now rewrite append_empty_r.
  - cbn [keys map fst tql_loop flat_map snd].
    unfold getitem. rewrite (Hfound t m) by (left; reflexivity).
    cbn [rbind]. fold (keys d). rewrite IH.
    + rewrite fold_tql_pair, concat_empty_app, append_assoc. reflexivity.
    + intros t' m' Hin. apply Hfound. right. assumption.
Qed.

(** ** attribute_based_filtering_tql *)

(** C2: for a filter that is a dict [{tensor: {key: value}}] the function
    returns the view as it got it and the fragment the specification
    describes: the clauses [<tensor>['<key>'] == <literal> and ] of all
    tensors and pairs, in order, without the last five characters; the
    filter [{"a": {"k": "v"}, "b": {"k2": 2}}] gives
    [a['k'] == 'v' and b['k2'] == 2], and an absent filter gives the empty
    string. *)
Theorem attribute_based_filtering_tql_fragment :
  forall (v : view) (d : list (string * mapping)) (debug_mode : bool) (w : list event),
    NoDup (keys d) ->
    fst (attribute_based_filtering_tql v Logger (FDict d) debug_mode w)
      = Ok (v, spec_tql_fragment d)
    /\ fst (attribute_based_filtering_tql v Logger
              (FDict [("a", [("k", AStr "v")]); ("b", [("k2", AInt 2)])])
              debug_mode w)
       = Ok (v, "a['k'] == 'v' and b['k2'] == 2")
    /\ fst (attribute_based_filtering_tql v Logger FNone debug_mode w) = Ok (v, "").
Proof.
  intros v d debug_mode w Hnd. split; [|split].
  - unfold attribute_based_filtering_tql, bind, lift.
    rewrite (tql_loop_fragment d d "").
    + cbn [rbind append]. fold (spec_tql_fragment d).
      destruct debug_mode; reflexivity.
    + intros t m Hin. apply lookup_NoDup; assumption.
  - destruct debug_mode; reflexivity.
  - destruct debug_mode; reflexivity.
Qed.

Lemma attribute_based_filtering_tql_fragment_witness :
  NoDup (keys [("a", [("k", AStr "v")]); ("b", [("k2", AInt 2)])])
  /\ fst (attribute_based_filtering_tql [] Logger
            (FDict [("a", [("k", AStr "v")]); ("b", [("k2", AInt 2)])]) false [])
     = Ok ([], spec_tql_fragment [("a", [("k", AStr "v")]); ("b", [("k2", AInt 2)])]).
Proof.
  assert (Hnd : NoDup (keys [("a", [("k", AStr "v")]); ("b", [("k2", AInt 2)])])).
  { simpl. constructor.
    - simpl. intros [H | []]. discriminate H.
    - constructor; [intros [] | constructor]. }
  split; [exact Hnd|].
  exact (proj1 (attribute_based_filtering_tql_fragment [] _ false [] Hnd)).
Defined.

(** C10: a filter that is present but no dict (a function object) is not
    translated: the view comes back as it was given, with the empty fragment
    and without an exception, whether or not the fragment is logged. *)
Theorem attribute_based_filtering_tql_callable :
  forall (v : view) (logger : logger_arg) (f : nat) (debug_mode : bool) (w : list event),
    attribute_based_filtering_tql v logger (FCallable f) false w = (Ok (v, ""), w)
    /\ fst (attribute_based_filtering_tql v Logger (FCallable f) debug_mode w)
       = Ok (v, "")
    /\ attribute_based_filtering_tql v Logger (FCallable f) true w
       = (Ok (v, ""), (w ++ [Logged "Converted tql string is: ''"])%list).
Proof.
  intros v logger f debug_mode w. repeat split.
  destruct debug_mode; reflexivity.
Qed.

(** ** exact_text_search *)

Lemma view_filter_text (q : string) (v : view) :
  Forall (fun ix => has_text (snd ix)) v ->
  view_filter (fun x => cell <~ row_getitem "text" x ;; query_in (AStr q) cell) v
  = Ok (filter (fun ix => text_matches q (snd ix)) v).
Proof.
  induction v as [|[i x] v IH]; intros Hall; [reflexivity|].
  inversion Hall as [|? ? [s Hs] Hall']; subst. simpl in Hs.
  cbn [view_filter filter snd]. rewrite (IH Hall').
  unfold row_getitem, text_matches. rewrite Hs. cbn [rbind query_in].
  destruct (str_contains q s); reflexivity.
Qed.

(** C8: on a view whose rows hold a text, [exact_text_search] returns the
    triple of the rows whose text contains the query, one score 1.0 for
    each of them, and the index; with no matching row the index is absent,
    the warning is emitted and nothing is raised, otherwise the index is the
    list of the matching rows' indices and nothing is emitted. *)
Theorem exact_text_search_result :
  forall (v : view) (q : string) (w : list event),
    Forall (fun ix => has_text (snd ix)) v ->
    let v' := filter (fun ix => text_matches q (snd ix)) v in
    exact_text_search v (AStr q) w
    = (Ok (v', repeat (1 # 1)%Q (List.length v'),
           match v' with
           | [] => None
           | _ :: _ => Some (sample_indices v')
           end),
       match v' with
       | [] => (w ++ [Warned no_files_warning])%list
       | _ :: _ => w
       end).
Proof.
  intros v q w Hall v'. unfold exact_text_search, bind, lift.
  rewrite (view_filter_text q v Hall). fold v'.
  destruct v' as [|ix rest]; reflexivity.
Qed.

Lemma exact_text_search_result_witness :
  exact_text_search [(0, text_row "hay needle hay"); (1, text_row "hay")]
                    (AStr "needle") []
  = (Ok ([(0, text_row "hay needle hay")], [(1 # 1)%Q], Some [0]), []).
Proof.
  apply (exact_text_search_result
           [(0, text_row "hay needle hay"); (1, text_row "hay")] "needle" []).
  repeat constructor; eexists; reflexivity.
Defined.

(** ** get_id_indices *)

(** C4, at the specification's own example: asked for ["a", "b", "c"] on a
    dataset that holds "a" and "c", [get_id_indices] raises, but the message
    names all three requested ids: [get_ids_that_does_not_exist] looks the
    ids up among the row indices [[0, 1]], where no string is found. *)
Theorem get_id_indices_names_present_ids :
  get_id_indices [(0, id_row "a"); (1, id_row "c")] [AStr "a"; AStr "b"; AStr "c"]
  = Err (ValueError "The following ids: `a`, `b`, `c` does not exist in the dataset").
Proof.
  reflexivity.
Qed.

(** A requested id that is a string is reported whatever the matched rows
    are. *)
Lemma get_ids_that_does_not_exist_strings (ids : list string) (filtered_ids : list nat) :
  get_ids_that_does_not_exist (map AStr ids) filtered_ids
  = drop_last 2 (String.concat "" (map (fun id => "`" ++ id ++ "`, ") ids)).
Proof.
  unfold get_ids_that_does_not_exist. f_equal.
  assert (Hnone : forall id, existsb (fun i => atom_eq (AStr id) (AInt (Z.of_nat i)))
                               filtered_ids = false).
  { intros id. induction filtered_ids as [|i l IH]; [reflexivity | exact IH]. }
  assert (Hgen : forall acc,
    fold_left
      (fun ids_that_doesnt_exist id =>
         if negb (existsb (fun i => atom_eq id (AInt (Z.of_nat i))) filtered_ids)
         then ids_that_doesnt_exist ++ ("`" ++ py_format id ++ "`, ")
         else ids_that_doesnt_exist)
      (map AStr ids) acc
    = acc ++ String.concat "" (map (fun id => "`" ++ id ++ "`, ") ids)).
  { induction ids as [|id ids IH]; intros acc'.
    - simpl. now rewrite append_empty_r.
    - cbn [map fold_left]. rewrite Hnone. cbn [negb py_format].
      rewrite IH, concat_empty_cons, append_assoc. reflexivity. }
  rewrite Hgen. reflexivity.
Qed.

(** ** get_converted_ids *)

Lemma getitem_error {V : Type} (k : string) (d : list (string * V)) (e : exn) :
  getitem k d = Err e -> is_ValueError e = false.
Proof.
  unfold getitem. destruct (lookup k d); intros Heq; inversion Heq. reflexivity.
Qed.

Lemma row_getitem_error (tensor : string) (x : row) (e : exn) :
  row_getitem tensor x = Err e -> is_ValueError e = false.
Proof.
  unfold row_getitem. destruct (lookup tensor x); intros Heq; inversion Heq.
  reflexivity.
Qed.

Lemma all_items_error (metadata : structured) (items : mapping) (e : exn) :
  all_items metadata items = Err e -> is_ValueError e = false.
Proof.
  induction items as [|[k v] items IH]; cbn [all_items]; [discriminate|].
  destruct metadata as [a | m].
  - destruct a; cbn; try (intros Heq; inversion Heq; reflexivity).
    destruct (str_contains k s); cbn; [|discriminate].
    intros Heq; inversion Heq; reflexivity.
  - cbn. unfold getitem. destruct (lookup k m) as [w|]; cbn.
    + destruct (atom_eq v w); [exact IH | discriminate].
    + discriminate.
Qed.

Lemma dp_filter_loop_error (x : row) (d : list (string * mapping))
    (tensors : list string) (result : predicate_value) (e : exn) :
  dp_filter_loop x d tensors result = Err e -> is_ValueError e = false.
Proof.
  revert result. induction tensors as [|t tensors IH]; intros result;
    cbn [dp_filter_loop]; [discriminate|].
  destruct (row_getitem t x) as [metadata|e1] eqn:Hx; cbn [rbind].
  2:{ intros Heq; inversion Heq; subst. eapply row_getitem_error; eassumption. }
  destruct (truthy result).
  - destruct (getitem t d) as [items|e2] eqn:Hd; cbn [rbind].
    2:{ intros Heq; inversion Heq; subst. eapply getitem_error; eassumption. }
    destruct (all_items metadata items) as [b|e3] eqn:Hall; cbn [rbind].
    + apply IH.
    + intros Heq; inversion Heq; subst. eapply all_items_error; eassumption.
  - cbn [rbind]. apply IH.
Qed.

Lemma dp_predicate_error (filter : filter_value) (x : row) (e : exn) :
  dp_predicate filter x = Err e -> is_ValueError e = false.
Proof.
  unfold dp_predicate, dp_filter_python.
  destruct filter as [|d|f]; cbn [rbind];
    try (intros Heq; inversion Heq; reflexivity).
  destruct (dp_filter_loop x d (keys d) _) as [r|e'] eqn:Hloop; cbn [rbind].
  - discriminate.
  - intros Heq; inversion Heq; subst. eapply dp_filter_loop_error; eassumption.
Qed.

Lemma view_filter_error (f : row -> res bool) (v : view) (e : exn) :
  (forall x e', f x = Err e' -> is_ValueError e' = false) ->
  view_filter f v = Err e -> is_ValueError e = false.
Proof.
  intros Hf. induction v as [|[i x] v IH]; cbn [view_filter]; [discriminate|].
  destruct (f x) as [keep|e1] eqn:Hfx; cbn [rbind].
  2:{ intros Heq; inversion Heq; subst. eapply Hf; eassumption. }
  destruct (view_filter f v) as [rest|e2]; cbn [rbind]; [discriminate|].
  intros Heq; inversion Heq; subst. apply IH. reflexivity.
Qed.

Lemma not_exist_message_differs (s : string) :
  s ++ " does not exist in the dataset." <> "Either filter or ids should be specified.".
Proof.
  unfold not.
  repeat (destruct s as [|? s]; cbn [append];
          [intros H; discriminate H | intros H; injection H as _ H; revert H]).
  destruct s; intros H; discriminate H.
Qed.

(** C9: with a filter and an empty list of ids, [get_converted_ids] is
    [get_filtered_ids] on the filter, and the error of the exclusion check
    is not raised. *)
Theorem get_converted_ids_empty_ids :
  forall (B : Backend) (dataset : view) (filter : filter_value),
    get_converted_ids dataset filter (Some []) = get_filtered_ids dataset filter
    /\ get_converted_ids dataset filter (Some [])
       <> Err (ValueError "Either filter or ids should be specified.").
Proof.
  intros B ds filter.
  assert (Heq : get_converted_ids ds filter (Some []) = get_filtered_ids ds filter)
    by reflexivity.
  split; [exact Heq|]. rewrite Heq. unfold get_filtered_ids.
  destruct (view_filter (dp_predicate filter) ds) as [v|e] eqn:Hv; cbn [rbind].
  - destruct (Nat.eqb _ 0); [|discriminate].
    intros H. inversion H as [Hmsg]. exact (not_exist_message_differs _ Hmsg).
  - intros H. inversion H; subst.
    assert (Hne : is_ValueError (ValueError "Either filter or ids should be specified.")
                  = false).
    { eapply view_filter_error; [|exact Hv]. intros x e'. apply dp_predicate_error. }
    discriminate Hne.
Qed.

(** C7, as the code has it: the exclusion error is raised when the ids list
    is non-empty and the filter is true as a Python value (a non-empty dict
    or a function); with a non-empty ids list and a filter that is absent or
    an empty dict the indices come from [get_id_indices]; with no ids, or an
    empty list, they come from [get_filtered_ids]. *)
Theorem get_converted_ids_dispatch :
  forall (B : Backend) (dataset : view) (filter : filter_value) (ids : list atom),
    ids <> [] ->
    (truthy_filter filter = true ->
       get_converted_ids dataset filter (Some ids)
       = Err (ValueError "Either filter or ids should be specified."))
    /\ (truthy_filter filter = false ->
          get_converted_ids dataset filter (Some ids) = get_id_indices dataset ids)
    /\ get_converted_ids dataset filter None = get_filtered_ids dataset filter
    /\ get_converted_ids dataset filter (Some []) = get_filtered_ids dataset filter.
Proof.
  intros B ds filter ids Hne.
  destruct ids as [|id ids]; [contradiction Hne; reflexivity|].
  unfold get_converted_ids. cbn [truthy_list andb].
  repeat split; intros Hf; rewrite Hf; reflexivity.
Qed.

Lemma get_converted_ids_dispatch_witness :
  [AStr "a"] <> []
  /\ @get_converted_ids null_backend [(0, id_row "a")]
       (FDict [("metadata", [("k", AStr "v")])]) (Some [AStr "a"])
     = Err (ValueError "Either filter or ids should be specified.").
Proof.
  assert (Hne : [AStr "a"] <> []) by discriminate.
  split; [exact Hne|].
  apply (get_converted_ids_dispatch null_backend [(0, id_row "a")]
           (FDict [("metadata", [("k", AStr "v")])]) [AStr "a"] Hne).
  reflexivity.
Defined.

(** C7 as it is worded fails on a filter that is present but empty: with
    the filter [{}] and the ids ["a"] no error is raised and the ids are
    resolved. *)
Lemma get_converted_ids_empty_dict_filter :
  truthy_list (Some [AStr "a"]) = true
  /\ FDict [] <> FNone
  /\ @get_converted_ids null_backend [(0, id_row "a")] (FDict []) (Some [AStr "a"])
     = Ok [0].
Proof.
  repeat split. discriminate.
Qed.

(** ** search: the execution option *)

(** C6, as the code has it: an argument that is a non-empty string is the
    effective option; a call that leaves the argument out gets the
    parameter's default ["python"], whatever the instance stores; the
    instance's option, the one given at construction, is used when the
    argument is passed as [None] or as the empty string. *)
Theorem resolve_exec_option_cases :
  forall (self : DeepLakeVectorStore) (s : string),
    s <> "" ->
    resolve_exec_option self (Some (Some s)) = s
    /\ resolve_exec_option self None = "python"
    /\ resolve_exec_option self (Some None) = _exec_option self
    /\ resolve_exec_option self (Some (Some "")) = _exec_option self
    /\ (forall loaded ef batch workers verbose,
          _exec_option (init loaded ef batch workers (Some s) verbose) = s).
Proof.
  intros self s Hs. repeat split.
  unfold resolve_exec_option. cbn [or_default].
  destruct s as [|c s]; [contradiction Hs; reflexivity | reflexivity].
Qed.

Lemma resolve_exec_option_cases_witness :
  "tensor_db" <> ""
  /\ resolve_exec_option (init [] None None None None None) (Some (Some "tensor_db"))
     = "tensor_db".
Proof.
  assert (Hne : "tensor_db" <> "") by discriminate.
  split; [exact Hne|].
  apply (resolve_exec_option_cases (init [] None None None None None) "tensor_db" Hne).
Defined.

(** C6 as it is worded fails: on a store built with ["compute_engine"] a
    search that passes no option does not run with the store's option. *)
Lemma resolve_exec_option_omitted :
  resolve_exec_option (init [] None None None (Some "compute_engine") None) None
  <> _exec_option (init [] None None None (Some "compute_engine") None).
Proof.
  discriminate.
Qed.

(** ** search: the two branches *)

Lemma bind_raises {A B : Type} (c : M A) (k : A -> M B) (w : list event) :
  (forall a w1, exists e w', k a w1 = (Err e, w')) ->
  exists e w', bind c k w = (Err e, w').
Proof.
  intros Hk. unfold bind. destruct (c w) as [[a|e] w1].
  - apply Hk.
  - exists e, w1. reflexivity.
Qed.

Lemma bind_then_ret {A B C : Type} (c : M A) (b : B) (k : B -> M C) (w : list event) :
  bind (c ;;; ret b) k w = bind c (fun _ => k b) w.
Proof.
  unfold bind, ret. destruct (c w) as [[a|e] w1]; reflexivity.
Qed.

Lemma raise_raises {A : Type} (e : exn) (w : list event) :
  exists e' w', @raise A e w = (Err e', w').
Proof.
  exists e, w. reflexivity.
Qed.

(** [type(filter) == Callable] is false for every filter. *)
Lemma type_of_never_Callable (filter : filter_value) :
  type_object_eqb (type_of filter) Callable = false.
Proof.
  destruct filter; reflexivity.
Qed.

(** C1: a search without embedding and without embedding function runs
    [exact_text_search] and drops its result: the call goes on into the
    ranking path, where [query_emb] was never assigned, and ends in an
    exception on every input; with collaborators that all succeed the
    exception is the [UnboundLocalError] on [query_emb]. *)
Theorem search_text_fallback_raises :
  (forall (B : Backend) (self : DeepLakeVectorStore) (prompt : option string)
          (k : Z) (distance_metric : string) (query : option string)
          (filter : filter_value) (exec_option : option (option string))
          (embedding_tensor : string) (w : list event),
      exists e w',
        search self prompt None None k distance_metric query filter exec_option
               embedding_tensor w = (Err e, w'))
  /\ @search null_backend
       (init [(0, text_row "hay needle hay"); (1, text_row "hay")]
             None None None None None)
       (Some "needle") None None 4%Z "L2" None FNone None "embedding" []
     = (Err (UnboundLocalError "query_emb"), []).
Proof.
  split; [|reflexivity].
  intros B self prompt k dm query filter eo et w. unfold search.
  destruct (negb (valid_exec_option (resolve_exec_option self eo)));
    [apply raise_raises|].
  rewrite bind_then_ret. apply bind_raises. intros r w1.
  apply bind_raises. intros runtime w2.
  destruct (String.eqb (resolve_exec_option self eo) "python").
  - destruct query; [apply raise_raises|].
    apply bind_raises. intros v w3. apply bind_raises. intros embs w4.
    exists (UnboundLocalError "query_emb"), w4. reflexivity.
  - rewrite type_of_never_Callable.
    destruct (truthy_str query && truthy_filter filter); [apply raise_raises|].
    apply bind_raises. intros u w3. apply bind_raises. intros [v tql] w4.
    exists (UnboundLocalError "query_emb"), w4. reflexivity.
Qed.

(** C5: with a function as filter and a delegated execution option the
    check [type(filter) == Callable] does not fire: the search goes on to
    [check_indra_installation] and [vector_search], with an empty filter
    fragment, for [compute_engine] and for [tensor_db] alike; with
    collaborators that succeed the call returns their result. *)
Theorem search_callable_filter_delegated :
  (forall (B : Backend) (self : DeepLakeVectorStore) (prompt : option string)
          (e : embedding_t) (k : Z) (distance_metric : string) (f : nat)
          (embedding_tensor : string) (w : list event),
      search self prompt None (Some e) k distance_metric None (FCallable f)
             (Some (Some "compute_engine")) embedding_tensor w
      = (query_embedding <- get_embedding (Some e) prompt None ;;
         runtime <- get_runtime_from_exec_option "compute_engine" ;;
         check_indra_installation "compute_engine" _INDRA_INSTALLED ;;;
         vector_search query_embedding (lower distance_metric) (dataset self) k
                       None "" embedding_tensor runtime) w
      /\ search self prompt None (Some e) k distance_metric None (FCallable f)
                (Some (Some "tensor_db")) embedding_tensor w
         = (query_embedding <- get_embedding (Some e) prompt None ;;
            runtime <- get_runtime_from_exec_option "tensor_db" ;;
            check_indra_installation "tensor_db" _INDRA_INSTALLED ;;;
            vector_search query_embedding (lower distance_metric) (dataset self) k
                          None "" embedding_tensor runtime) w)
  /\ @search null_backend (init [(0, text_row "hay")] None None None None None)
       None None (Some tt) 4%Z "L2" None (FCallable 0)
       (Some (Some "compute_engine")) "embedding" []
     = (Ok tt, []).
Proof.
  split; [|reflexivity].
  intros B self prompt e k dm f et w.
  split; unfold search; cbn -[lower bind]; unfold bind;
    destruct (get_embedding (Some e) prompt None w) as [[qe|err] w1];
    cbn; try reflexivity;
    destruct (get_runtime_from_exec_option _ w1) as [[rt|err] w2];
    cbn; try reflexivity;
    destruct (check_indra_installation _ _INDRA_INSTALLED w2) as [[u|err] w3];
    cbn; reflexivity.
Qed.

(** ** dp_filter_python *)

Lemma all_items_holds (m : mapping) (items : mapping) :
  all_items (SMap m) items = Ok (forallb (spec_key_holds (SMap m)) items).
Proof.
  induction items as [|[k v] items IH]; [reflexivity|].
  cbn [all_items key_in subscript forallb spec_key_holds fst snd rbind].
  unfold getitem. destruct (lookup k m) as [w|]; cbn [rbind]; [|reflexivity].
  destruct (atom_eq v w); [exact IH | reflexivity].
Qed.

Lemma dp_filter_loop_holds (x : row) (filter d : list (string * mapping)) (b : bool) :
  (forall t items, In (t, items) d -> lookup t filter = Some items) ->
  cells_are_maps x d ->
  dp_filter_loop x filter (keys d) (PBool b)
  = Ok (PBool (b && spec_row_matches x d)).
Proof.
  revert b. induction d as [|[t items] d IH]; intros b Hfound Hcells.
  - cbn. now rewrite andb_true_r.
  - destruct (Hcells t items (or_introl eq_refl)) as [m Hm].
    cbn [keys map fst dp_filter_loop]. fold (keys d).
    unfold row_getitem. rewrite Hm. cbn [rbind truthy].
    assert (Hd : forall t' items', In (t', items') d -> lookup t' filter = Some items')
      by (intros; apply Hfound; right; assumption).
    assert (Hc : cells_are_maps x d)
      by (intros t' items' Hin; apply (Hcells t' items'); right; assumption).
    cbn [spec_row_matches forallb fst snd]. rewrite Hm.
    destruct b.
    + unfold getitem. rewrite (Hfound t items (or_introl eq_refl)). cbn [rbind].
      rewrite all_items_holds. cbn [rbind]. rewrite (IH _ Hd Hc). reflexivity.
    + cbn [rbind]. rewrite (IH _ Hd Hc). reflexivity.
Qed.

(** On a row whose named tensors hold JSON objects the predicate is the
    conjunction the specification words. *)
Lemma dp_predicate_holds (x : row) (d : list (string * mapping)) :
  NoDup (keys d) -> cells_are_maps x d ->
  dp_predicate (FDict d) x = Ok (spec_row_matches x d).
Proof.
  intros Hnd Hcells. unfold dp_predicate, dp_filter_python.
  destruct d as [|[t items] d]; [reflexivity|].
  destruct (Hcells t items (or_introl eq_refl)) as [m Hm].
  assert (Hfound : forall t' items', In (t', items') ((t, items) :: d) ->
                     lookup t' ((t, items) :: d) = Some items')
    by (intros; apply lookup_NoDup; assumption).
  cbn [keys map fst dp_filter_loop]. fold (keys d).
  unfold row_getitem. rewrite Hm. cbn [rbind len repeat truthy].
  unfold getitem at 1. rewrite (Hfound t items (or_introl eq_refl)). cbn [rbind].
  rewrite all_items_holds. cbn [rbind].
  rewrite (dp_filter_loop_holds x ((t, items) :: d) d).
  - cbn [rbind truthy spec_row_matches forallb fst snd]. rewrite Hm. reflexivity.
  - intros t' items' Hin. apply Hfound. right. assumption.
  - intros t' items' Hin. apply (Hcells t' items'). right. assumption.
Qed.

Lemma dp_predicate_conjunction (x : row) (d : list (string * mapping)) :
  x <> [] -> NoDup (keys d) -> cells_are_maps x d ->
  dp_predicate (FDict d) x = Ok (spec_row_matches x d).
Proof.
  intros _. apply dp_predicate_holds.
Qed.

(** The conjunction in the specification's words: every key a tensor of the
    filter lists is in that tensor's object of the row, with an equal
    value. *)
Lemma spec_row_matches_iff (x : row) (d : list (string * mapping)) :
  cells_are_maps x d ->
  spec_row_matches x d = true
  <-> forall t items k v,
        In (t, items) d -> In (k, v) items ->
        exists m w, lookup t x = Some (SMap m)
                    /\ lookup k m = Some w /\ atom_eq v w = true.
Proof.
  intros Hcells. unfold spec_row_matches. rewrite forallb_forall. split.
  - intros Hall t items k v Hd Hkv.
    specialize (Hall (t, items) Hd). cbn [fst snd] in Hall.
    destruct (Hcells t items Hd) as [m Hm]. rewrite Hm in Hall.
    rewrite forallb_forall in Hall. specialize (Hall (k, v) Hkv).
    cbn [spec_key_holds fst snd] in Hall.
    destruct (lookup k m) as [w|] eqn:Hk; [|discriminate Hall].
    exists m, w. repeat split; assumption.
  - intros Hall [t items] Hd. cbn [fst snd].
    destruct (Hcells t items Hd) as [m Hm]. rewrite Hm.
    apply forallb_forall. intros [k v] Hkv.
    destruct (Hall t items k v Hd Hkv) as [m' [w [Hm' [Hk Heq]]]].
    rewrite Hm in Hm'. inversion Hm'; subst m'.
    cbn [spec_key_holds fst snd]. rewrite Hk. exact Heq.
Qed.

(** C3: for every row and every dict filter [{tensor: {key: value}}] whose
    tensors hold JSON objects in the row, [dp_filter_python] returns, and
    the value it returns is true, so that the row is kept, if and only if
    for every tensor of the filter every listed key is in that tensor's
    object of the row with an equal value. *)
Theorem dp_filter_python_keeps_iff :
  forall (x : row) (d : list (string * mapping)),
    NoDup (keys d) -> cells_are_maps x d ->
    exists r,
      dp_filter_python x (FDict d) = Ok r
      /\ (truthy r = true
          <-> forall t items k v,
                In (t, items) d -> In (k, v) items ->
                exists m w, lookup t x = Some (SMap m)
                            /\ lookup k m = Some w /\ atom_eq v w = true).
Proof.
  intros x d Hnd Hcells.
  pose proof (dp_predicate_holds x d Hnd Hcells) as Hp. unfold dp_predicate in Hp.
  destruct (dp_filter_python x (FDict d)) as [r|e]; cbn [rbind] in Hp;
    [|discriminate Hp].
  exists r. split; [reflexivity|].
  inversion Hp as [Hr]. rewrite Hr. apply spec_row_matches_iff. exact Hcells.
Qed.

Lemma dp_filter_python_keeps_iff_witness :
  exists r,
    dp_filter_python [("metadata", SMap [("k", AStr "v"); ("n", AInt 2)])]
                     (FDict [("metadata", [("n", AInt 2)])])
    = Ok r
    /\ (truthy r = true
        <-> forall t items k v,
              In (t, items) [("metadata", [("n", AInt 2)])] -> In (k, v) items ->
              exists m w,
                lookup t [("metadata", SMap [("k", AStr "v"); ("n", AInt 2)])]
                = Some (SMap m)
                /\ lookup k m = Some w /\ atom_eq v w = true).
Proof.
  apply dp_filter_python_keeps_iff.
  - repeat constructor. intros [].
  - intros t items [Heq | []]. inversion Heq. eexists. reflexivity.
Defined.

(** On a row with at least one tensor, whose tensors named by the filter
    hold JSON objects, [dp_filter_python] returns a value that is true
    exactly when every key of every tensor of the filter is in the row's
    object with an equal value. *)
Theorem dp_filter_python_conjunction :
  forall (x : row) (d : list (string * mapping)),
    x <> [] -> NoDup (keys d) -> cells_are_maps x d ->
    exists r, dp_filter_python x (FDict d) = Ok r
              /\ truthy r = spec_row_matches x d.
Proof.
  intros x d Hx Hnd Hcells.
  pose proof (dp_predicate_conjunction x d Hx Hnd Hcells) as Hp.
  unfold dp_predicate in Hp.
  destruct (dp_filter_python x (FDict d)) as [r|e]; cbn [rbind] in Hp;
    [|discriminate Hp].
  exists r. split; [reflexivity|]. now inversion Hp.
Qed.

Lemma dp_filter_python_conjunction_witness :
  exists r,
    dp_filter_python (metadata_row "k" (AStr "v")) (FDict [("metadata", [("k", AStr "v")])])
    = Ok r
    /\ truthy r
       = spec_row_matches (metadata_row "k" (AStr "v")) [("metadata", [("k", AStr "v")])].
Proof.
  apply dp_filter_python_conjunction.
  - discriminate.
  - repeat constructor. intros [].
  - intros t items [Heq | []]. inversion Heq. eexists. reflexivity.
Defined.

Lemma dp_filter_loop_missing_tensor (x : row) (filter : list (string * mapping))
    (t : string) (tensors : list string) (result : predicate_value) :
  In t tensors -> lookup t x = None ->
  exists e, dp_filter_loop x filter tensors result = Err e
            /\ is_ValueError e = false.
Proof.
  intros Hin Hmiss. revert result Hin.
  induction tensors as [|t0 tensors IH]; intros result Hin; [contradiction|].
  cbn [dp_filter_loop].
  destruct (row_getitem t0 x) as [metadata|e] eqn:Hx; cbn [rbind].
  2:{ exists e. split; [reflexivity | eapply row_getitem_error; eassumption]. }
  assert (Hrest : In t tensors).
  { destruct Hin as [-> | Hin]; [|exact Hin].
    unfold row_getitem in Hx. rewrite Hmiss in Hx. discriminate Hx. }
  match goal with
  | |- exists e, rbind ?c _ = _ /\ _ => destruct c as [r'|e] eqn:Hstep
  end; cbn [rbind].
  - apply IH. exact Hrest.
  - exists e. split; [reflexivity|].
    destruct (truthy result); [|discriminate Hstep].
    destruct (getitem t0 filter) as [items|e2] eqn:Hd; cbn [rbind] in Hstep.
    2:{ inversion Hstep; subst. eapply getitem_error; eassumption. }
    destruct (all_items metadata items) as [b|e3] eqn:Hall; cbn [rbind] in Hstep;
      [discriminate Hstep|].
    inversion Hstep; subst. eapply all_items_error; eassumption.
Qed.

(** A filter that names a tensor the row does not have makes the predicate
    raise; the row is not silently dropped, also when an earlier tensor of
    the filter has already failed to match. *)
Theorem dp_filter_python_missing_tensor :
  forall (x : row) (d : list (string * mapping)) (t : string),
    In t (keys d) -> lookup t x = None ->
    exists e, dp_filter_python x (FDict d) = Err e /\ is_ValueError e = false.
Proof.
  intros x d t Hin Hmiss. unfold dp_filter_python.
  eapply dp_filter_loop_missing_tensor; eassumption.
Qed.

Lemma dp_filter_python_missing_tensor_witness :
  exists e,
    dp_filter_python (metadata_row "k" (AStr "v"))
                     (FDict [("metadata", [("k", AStr "w")]); ("labels", [])])
    = Err e /\ is_ValueError e = false.
Proof.
  apply (dp_filter_python_missing_tensor _ _ "labels").
  - right. left. reflexivity.
  - reflexivity.
Defined.

(** The engine's filter keeps the rows on which the predicate is true, in
    their order. *)
Lemma view_filter_holds (f : row -> res bool) (v v' : view) :
  view_filter f v = Ok v' -> v' = filter (fun ix => holds f (snd ix)) v.
Proof.
  revert v'. induction v as [|[i x] v IH]; intros v'; cbn [view_filter filter snd].
  - intros Heq; inversion Heq; reflexivity.
  - unfold holds at 1. destruct (f x) as [keep|e]; cbn [rbind]; [|discriminate].
    destruct (view_filter f v) as [rest|e]; cbn [rbind]; [|discriminate].
    intros Heq; inversion Heq; subst. rewrite (IH rest eq_refl).
    destruct keep; reflexivity.
Qed.

Lemma view_filter_total (f : row -> res bool) (g : row -> bool) (v : view) :
  Forall (fun ix => f (snd ix) = Ok (g (snd ix))) v ->
  view_filter f v = Ok (filter (fun ix => g (snd ix)) v).
Proof.
  induction v as [|[i x] v IH]; intros Hall; [reflexivity|].
  inversion Hall as [|? ? Hx Hall']; subst. cbn [snd] in Hx.
  cbn [view_filter filter snd]. rewrite Hx, (IH Hall'). cbn [rbind].
  destruct (g x); reflexivity.
Qed.

(** With the empty dict as filter every row that has a tensor is kept: the
    predicate returns the non-empty list [[1] * len(x)]. *)
Theorem attribute_based_filtering_python_empty_dict :
  forall (B : Backend) (v : view),
    Forall (fun ix => snd ix <> []) v ->
    attribute_based_filtering_python v (FDict []) = Ok v.
Proof.
  intros B v Hall. cbn [attribute_based_filtering_python].
  rewrite (view_filter_total _ (fun _ => true)).
  - f_equal. induction v as [|ix v IH]; [reflexivity|].
    cbn [filter]. f_equal. apply IH. inversion Hall; assumption.
  - eapply Forall_impl; [|exact Hall]. intros [i x] Hx. cbn [snd] in *.
    destruct x; [contradiction Hx; reflexivity | reflexivity].
Qed.

Lemma attribute_based_filtering_python_empty_dict_witness :
  @attribute_based_filtering_python null_backend
     [(0, text_row "a"); (1, text_row "b")] (FDict [])
  = Ok [(0, text_row "a"); (1, text_row "b")].
Proof.
  apply attribute_based_filtering_python_empty_dict.
  repeat constructor; discriminate.
Defined.

Lemma attribute_based_filtering_python_dict_rows (B : Backend) (v : view)
    (d : list (string * mapping)) :
  NoDup (keys d) ->
  Forall (fun ix => snd ix <> [] /\ cells_are_maps (snd ix) d) v ->
  attribute_based_filtering_python v (FDict d)
  = Ok (filter (fun ix => spec_row_matches (snd ix) d) v).
Proof.
  intros Hnd Hall. cbn [attribute_based_filtering_python].
  apply (view_filter_total _ (fun x => spec_row_matches x d)).
  eapply Forall_impl; [|exact Hall]. intros [i x] [Hx Hcells]. cbn [snd] in *.
  apply dp_predicate_conjunction; assumption.
Qed.

(** On a view whose rows have a tensor and hold JSON objects in the tensors
    the filter names, filtering by a dict keeps exactly the rows for which
    all key/value pairs of all tensors match, in the view's order. *)
Theorem attribute_based_filtering_python_dict :
  forall (B : Backend) (v : view) (d : list (string * mapping)),
    NoDup (keys d) ->
    Forall (fun ix => snd ix <> [] /\ cells_are_maps (snd ix) d) v ->
    attribute_based_filtering_python v (FDict d)
    = Ok (filter (fun ix => spec_row_matches (snd ix) d) v).
Proof.
  intros B v d Hnd Hall.
  apply attribute_based_filtering_python_dict_rows; assumption.
Qed.

Lemma attribute_based_filtering_python_dict_witness :
  @attribute_based_filtering_python null_backend
     [(0, metadata_row "k" (AStr "v")); (1, metadata_row "k" (AStr "w"))]
     (FDict [("metadata", [("k", AStr "v")])])
  = Ok [(0, metadata_row "k" (AStr "v"))].
Proof.
  apply (attribute_based_filtering_python_dict null_backend
           [(0, metadata_row "k" (AStr "v")); (1, metadata_row "k" (AStr "w"))]
           [("metadata", [("k", AStr "v")])]).
  - repeat constructor. intros [].
  - repeat constructor; try discriminate;
      intros t items [Heq | []]; inversion Heq; eexists; reflexivity.
Defined.

(** When [get_filtered_ids] returns, the list is not empty and holds, in the
    dataset's order, the indices of exactly the rows on which the predicate
    is true. *)
Theorem get_filtered_ids_result :
  forall (B : Backend) (dataset : view) (filter : filter_value) (l : list nat),
    get_filtered_ids dataset filter = Ok l ->
    l <> []
    /\ l = sample_indices
             (List.filter (fun ix => holds (dp_predicate filter) (snd ix)) dataset).
Proof.
  intros B ds f l. unfold get_filtered_ids.
  destruct (view_filter (dp_predicate f) ds) as [v|e] eqn:Hv; cbn [rbind];
    [|discriminate].
  apply view_filter_holds in Hv. subst v.
  destruct (sample_indices _) as [|i rest] eqn:Hidx; cbn [List.length Nat.eqb];
    [discriminate|].
  intros Heq; inversion Heq; subst. split; [discriminate | reflexivity].
Qed.

Lemma get_filtered_ids_result_witness :
  [1] <> []
  /\ [1] = sample_indices
             (List.filter
                (fun ix => holds (dp_predicate (FDict [("metadata", [("k", AStr "w")])]))
                                 (snd ix))
                [(0, metadata_row "k" (AStr "v")); (1, metadata_row "k" (AStr "w"))]).
Proof.
  apply (get_filtered_ids_result null_backend
           [(0, metadata_row "k" (AStr "v")); (1, metadata_row "k" (AStr "w"))]
           (FDict [("metadata", [("k", AStr "w")])]) [1]).
  reflexivity.
Defined.

(** Without a dict as filter [get_filtered_ids] never returns: on an empty
    dataset it reports that the filter does not exist, on any other dataset
    the predicate fails on the first row, for want of [keys]. By
    [get_converted_ids] this is what [delete] meets when neither ids nor a
    filter are given. *)
Theorem get_filtered_ids_no_dict :
  forall (B : Backend) (dataset : view) (filter : filter_value),
    (forall d, filter <> FDict d) ->
    get_filtered_ids dataset filter
    = Err (match dataset with
           | [] => ValueError (filter_repr filter ++ " does not exist in the dataset.")
           | _ :: _ => AttributeError "keys"
           end)
    /\ get_converted_ids dataset FNone None = get_filtered_ids dataset FNone.
Proof.
  intros B ds f Hf. split; [|reflexivity].
  unfold get_filtered_ids. destruct ds as [|[i x] ds]; [reflexivity|].
  cbn [view_filter]. unfold dp_predicate at 1, dp_filter_python.
  destruct f as [|d|n]; try reflexivity. contradiction (Hf d). reflexivity.
Qed.

Lemma get_filtered_ids_no_dict_witness :
  @get_filtered_ids null_backend [(0, id_row "a")] FNone = Err (AttributeError "keys").
Proof.
  apply (get_filtered_ids_no_dict null_backend [(0, id_row "a")] FNone).
  discriminate.
Defined.

Lemma view_filter_ids (ids : list atom) (v : view) :
  Forall (fun ix => has_ids (snd ix)) v ->
  view_filter (fun x => cell <~ row_getitem "ids" x ;; Ok (in_list cell ids)) v
  = Ok (filter (fun ix => id_requested ids (snd ix)) v).
Proof.
  intros Hall. apply (view_filter_total _ (id_requested ids)).
  eapply Forall_impl; [|exact Hall]. intros [i x] [cell Hcell]. cbn [snd] in *.
  unfold row_getitem, id_requested. rewrite Hcell. reflexivity.
Qed.

(** On a dataset whose rows have an [ids] tensor, [get_id_indices] returns
    the indices of the rows whose id is requested when there are as many of
    them as requested ids, and raises [ValueError] otherwise: also when every
    requested id is stored, but one is requested or stored twice. *)
Theorem get_id_indices_count :
  forall (dataset : view) (ids : list atom),
    Forall (fun ix => has_ids (snd ix)) dataset ->
    let found := List.filter (fun ix => id_requested ids (snd ix)) dataset in
    (List.length found = List.length ids ->
       get_id_indices dataset ids = Ok (sample_indices found))
    /\ (List.length found <> List.length ids ->
          exists msg, get_id_indices dataset ids = Err (ValueError msg)).
Proof.
  intros ds ids Hall found. unfold get_id_indices.
  rewrite (view_filter_ids ids ds Hall). fold found. cbn [rbind].
  assert (Hl : List.length (sample_indices found) = List.length found)
    by apply length_map.
  rewrite Hl. split; intros Hlen.
  - rewrite Hlen, Nat.eqb_refl. reflexivity.
  - apply Nat.eqb_neq in Hlen. rewrite Hlen. cbn [negb]. eexists. reflexivity.
Qed.

Lemma get_id_indices_count_witness :
  exists msg,
    get_id_indices [(0, id_row "a"); (1, id_row "c")] [AStr "a"; AStr "a"]
    = Err (ValueError msg).
Proof.
  apply (get_id_indices_count [(0, id_row "a"); (1, id_row "c")] [AStr "a"; AStr "a"]).
  - repeat constructor; eexists; reflexivity.
  - cbn. discriminate.
Defined.

(** On a dataset that has rows but no [ids] tensor, [get_id_indices] does
    not report the requested ids as missing: the predicate fails on the
    first row with the engine's [TensorDoesNotExistError]. *)
Theorem get_id_indices_missing_tensor :
  forall (i : nat) (x : row) (rest : view) (ids : list atom),
    lookup "ids" x = None ->
    get_id_indices ((i, x) :: rest) ids = Err (TensorDoesNotExistError "ids").
Proof.
  intros i x rest ids Hmiss. unfold get_id_indices. cbn [view_filter].
  unfold row_getitem at 1. rewrite Hmiss. reflexivity.
Qed.

Lemma get_id_indices_missing_tensor_witness :
  get_id_indices [(0, text_row "t"); (1, text_row "u")] [AStr "a"]
  = Err (TensorDoesNotExistError "ids").
Proof.
  apply get_id_indices_missing_tensor. reflexivity.
Defined.

(** ** Further properties of exact_text_search *)

Lemma prefix_app (q s : string) :
  prefix q s = true <-> exists b, s = q ++ b.
Proof.
  revert q. induction s as [|c' s IH]; intros q; destruct q as [|c q];
    cbn [prefix append].
  - split; [intros _; exists ""; reflexivity | reflexivity].
  - split; [discriminate | intros [b Hb]; discriminate Hb].
  - split; [intros _; exists (String c' s); reflexivity | reflexivity].
  - destruct (Ascii.ascii_dec c c') as [Heq|Hne].
    + subst c'. split.
      * intros Hp. apply IH in Hp. destruct Hp as [b Hb]. exists b. now rewrite Hb.
      * intros [b Hb]. apply IH. exists b. now inversion Hb.
    + split; [discriminate|]. intros [b Hb]. inversion Hb. congruence.
Qed.

(** The substring test is the one of Python: [q in s] holds exactly when [s]
    is some text, then [q], then some text. *)
Lemma str_contains_app (q s : string) :
  str_contains q s = true <-> exists a b, s = a ++ q ++ b.
Proof.
  induction s as [|c s IH]; cbn [str_contains].
  - destruct (prefix q "") eqn:Hp.
    + split; [intros _|reflexivity]. apply prefix_app in Hp. destruct Hp as [b Hb].
      exists "", b. exact Hb.
    + split; [discriminate|]. intros [a [b Hab]].
      assert (Hq : prefix q "" = true).
      { apply prefix_app. destruct a; [|discriminate Hab]. exists b. exact Hab. }
      rewrite Hq in Hp. discriminate Hp.
  - destruct (prefix q (String c s)) eqn:Hp.
    + split; [intros _|reflexivity]. apply prefix_app in Hp. destruct Hp as [b Hb].
      exists "", b. exact Hb.
    + rewrite IH. split.
      * intros [a [b Hab]]. exists (String c a), b. cbn [append]. now rewrite Hab.
      * intros [a [b Hab]]. destruct a as [|c' a].
        -- assert (Hq : prefix q (String c s) = true)
             by (apply prefix_app; exists b; exact Hab).
           rewrite Hq in Hp. discriminate Hp.
        -- cbn [append] in Hab. inversion Hab. exists a, b. reflexivity.
Qed.

(** On a view whose rows hold a text, the view [exact_text_search] returns
    holds exactly the rows whose text reads: some text, the query, some
    text. *)
Theorem exact_text_search_substring :
  forall (v : view) (q : string) (w : list event),
    Forall (fun ix => has_text (snd ix)) v ->
    exists v' scores index w',
      exact_text_search v (AStr q) w = (Ok (v', scores, index), w')
      /\ forall i x,
           In (i, x) v'
           <-> In (i, x) v
               /\ exists s a b, lookup "text" x = Some (SAtom (AStr s))
                                /\ s = a ++ q ++ b.
Proof.
  intros v q w Hall. unfold exact_text_search, bind, lift.
  rewrite (view_filter_text q v Hall).
  assert (Hmem : forall i x,
            In (i, x) (filter (fun ix => text_matches q (snd ix)) v)
            <-> In (i, x) v
                /\ exists s a b, lookup "text" x = Some (SAtom (AStr s))
                                 /\ s = a ++ q ++ b).
  { intros i x. rewrite filter_In. cbn [snd]. unfold text_matches. split.
    - intros [Hin Hm]. split; [exact Hin|].
      destruct (lookup "text" x) as [[[| | |s]|]|]; try discriminate Hm.
      exists s. apply str_contains_app in Hm. destruct Hm as [a [b Hab]].
      exists a, b. split; [reflexivity | exact Hab].
    - intros [Hin [s [a [b [Hs Hab]]]]]. split; [exact Hin|].
      rewrite Hs. apply str_contains_app. exists a, b. exact Hab. }
  exists (filter (fun ix => text_matches q (snd ix)) v).
  destruct (Nat.eqb (List.length (filter (fun ix => text_matches q (snd ix)) v)) 0);
    do 3 eexists; (split; [reflexivity | exact Hmem]).
Qed.

Lemma exact_text_search_substring_witness :
  exists v' scores index w',
    exact_text_search [(0, text_row "hay needle hay"); (1, text_row "hay")]
                      (AStr "needle") []
    = (Ok (v', scores, index), w')
    /\ forall i x,
         In (i, x) v'
         <-> In (i, x) [(0, text_row "hay needle hay"); (1, text_row "hay")]
             /\ exists s a b, lookup "text" x = Some (SAtom (AStr s))
                              /\ s = a ++ "needle" ++ b.
Proof.
  apply exact_text_search_substring.
  repeat constructor; eexists; reflexivity.
Defined.

(** The empty query is contained in every text: on a view whose rows hold a
    text all rows come back, each with the score 1.0. *)
Theorem exact_text_search_empty_query :
  forall (v : view) (w : list event),
    Forall (fun ix => has_text (snd ix)) v ->
    fst (exact_text_search v (AStr "") w)
    = Ok (v, repeat (1 # 1)%Q (List.length v),
          match v with
          | [] => None
          | _ :: _ => Some (sample_indices v)
          end).
Proof.
  intros v w Hall. unfold exact_text_search, bind, lift.
  rewrite (view_filter_text "" v Hall).
  assert (Hsame : filter (fun ix => text_matches "" (snd ix)) v = v).
  { induction Hall as [|[i x] v [s Hs] Hall IH]; [reflexivity|].
    cbn [filter snd] in *. unfold text_matches at 1. rewrite Hs.
    destruct s; cbn [str_contains prefix]; now rewrite IH. }
  rewrite Hsame. destruct v; reflexivity.
Qed.

Lemma exact_text_search_empty_query_witness :
  fst (exact_text_search [(0, text_row "a"); (1, text_row "")] (AStr "") [])
  = Ok ([(0, text_row "a"); (1, text_row "")], [(1 # 1)%Q; (1 # 1)%Q], Some [0; 1]).
Proof.
  apply (exact_text_search_empty_query [(0, text_row "a"); (1, text_row "")] []).
  repeat constructor; eexists; reflexivity.
Defined.

(** A query that is [None] on a view that starts with a row holding a text:
    the substring test raises [TypeError], no warning is emitted. A
    [search] without prompt, embedding and embedding function ends this
    way, before any collaborator is called. *)
Theorem exact_text_search_no_query :
  forall (B : Backend) (self : DeepLakeVectorStore) (i : nat) (x : row) (v : view)
         (k : Z) (distance_metric : string) (query : option string)
         (filter : filter_value) (exec_option : option (option string))
         (embedding_tensor : string) (w : list event),
    has_text x ->
    dataset self = (i, x) :: v ->
    valid_exec_option (resolve_exec_option self exec_option) = true ->
    exact_text_search ((i, x) :: v) ANone w = (Err TypeError, w)
    /\ search self None None None k distance_metric query filter exec_option
              embedding_tensor w
       = (Err TypeError, w).
Proof.
  intros B self i x v k dm query f eo et w [s Hs] Hds Hvalid.
  assert (Hets : exact_text_search ((i, x) :: v) ANone w = (Err TypeError, w)).
  { unfold exact_text_search, bind, lift. cbn [view_filter].
    unfold row_getitem. rewrite Hs. reflexivity. }
  split; [exact Hets|].
  unfold search. rewrite Hvalid. cbn [negb atom_of_prompt].
  rewrite bind_then_ret. unfold bind at 1. rewrite Hds, Hets. reflexivity.
Qed.

Lemma exact_text_search_no_query_witness :
  @search null_backend (init [(0, text_row "hay")] None None None None None)
          None None None 4%Z "L2" None FNone None "embedding" []
  = (Err TypeError, []).
Proof.
  apply (exact_text_search_no_query null_backend
           (init [(0, text_row "hay")] None None None None None)
           0 (text_row "hay") []).
  - eexists. reflexivity.
  - reflexivity.
  - reflexivity.
Defined.

(** ** Further properties of attribute_based_filtering_tql *)

Lemma length_append (a b : string) :
  String.length (a ++ b) = String.length a + String.length b.
Proof.
  induction a as [|c a IH]; cbn [append String.length]; [reflexivity | now rewrite IH].
Qed.

Lemma substring_prefix (a b : string) :
  substring 0 (String.length a) (a ++ b) = a.
Proof.
  induction a as [|c a IH]; cbn [append String.length substring].
  - destruct b; reflexivity.
  - now rewrite IH.
Qed.

Lemma drop_last_append (a b : string) :
  drop_last (String.length b) (a ++ b) = a.
Proof.
  unfold drop_last. rewrite length_append.
  replace (String.length a + String.length b - String.length b)
    with (String.length a) by lia.
  apply substring_prefix.
Qed.

Lemma spec_clauses_end (d : list (string * mapping)) :
  spec_clauses d <> [] ->
  exists body, String.concat "" (spec_clauses d) = body ++ " and ".
Proof.
  intros Hne. destruct (exists_last Hne) as [front [c Hlast]].
  assert (Hin : In c (spec_clauses d)) by (rewrite Hlast; apply in_or_app; right; now left).
  unfold spec_clauses in Hin. apply in_flat_map in Hin. destruct Hin as [[t m] [_ Hc]].
  apply in_map_iff in Hc. destruct Hc as [[key value] [Hc _]]. cbn [fst snd] in Hc.
  rewrite Hlast, concat_empty_app. cbn [String.concat]. subst c.
  unfold spec_clause. cbn [fst snd].
  exists (String.concat "" front ++ t ++ "['" ++ key ++ "'] == " ++ spec_literal value).
  repeat rewrite append_assoc. reflexivity.
Qed.

(** The five characters the function strips are the separator after the last
    clause: for a dict filter with at least one key/value pair, the fragment
    followed by [ and ] is the concatenation of all clauses; with no pair the
    fragment is empty. *)
Theorem attribute_based_filtering_tql_separator :
  forall (v : view) (d : list (string * mapping)) (debug_mode : bool) (w : list event),
    NoDup (keys d) ->
    exists fragment,
      fst (attribute_based_filtering_tql v Logger (FDict d) debug_mode w)
      = Ok (v, fragment)
      /\ (spec_clauses d <> [] ->
            fragment ++ " and " = String.concat "" (spec_clauses d))
      /\ (spec_clauses d = [] -> fragment = "").
Proof.
  intros v d debug_mode w Hnd.
  exists (drop_last 5 (String.concat "" (spec_clauses d))). split; [|split].
  - unfold attribute_based_filtering_tql, bind, lift.
    rewrite (tql_loop_fragment d d "")
      by (intros t m Hin; apply lookup_NoDup; assumption).
    cbn [rbind append]. fold (spec_clauses d). destruct debug_mode; reflexivity.
  - intros Hne. destruct (spec_clauses_end d Hne) as [body Hbody]. rewrite Hbody.
    change 5 with (String.length " and "). now rewrite drop_last_append.
  - intros Hnil. rewrite Hnil. reflexivity.
Qed.

Lemma attribute_based_filtering_tql_separator_witness :
  exists fragment,
    fst (attribute_based_filtering_tql [] Logger
           (FDict [("a", [("k", AStr "v")]); ("b", [("k2", AInt 2)])]) false [])
    = Ok ([], fragment)
    /\ (spec_clauses [("a", [("k", AStr "v")]); ("b", [("k2", AInt 2)])] <> [] ->
          fragment ++ " and "
          = String.concat "" (spec_clauses [("a", [("k", AStr "v")]); ("b", [("k2", AInt 2)])]))
    /\ (spec_clauses [("a", [("k", AStr "v")]); ("b", [("k2", AInt 2)])] = [] ->
          fragment = "").
Proof.
  apply attribute_based_filtering_tql_separator.
  constructor.
  - simpl. intros [H | []]. discriminate H.
  - constructor; [intros [] | constructor].
Defined.

Lemma tql_loop_ok (filter d : list (string * mapping)) (acc : string) :
  (forall t, In t (keys d) -> exists m, lookup t filter = Some m) ->
  exists s, tql_loop filter (keys d) acc = Ok s.
Proof.
  revert acc. induction d as [|[t m] d IH]; intros acc Hfound.
  - exists acc. reflexivity.
  - cbn [keys map fst tql_loop]. fold (keys d).
    destruct (Hfound t (or_introl eq_refl)) as [m' Hm']. unfold getitem.
    rewrite Hm'. cbn [rbind]. apply IH. intros t' Hin. apply Hfound. right. exact Hin.
Qed.

Lemma lookup_keys {V : Type} (d : list (string * V)) (t : string) :
  In t (keys d) -> exists m, lookup t d = Some m.
Proof.
  induction d as [|[t' m'] d IH]; cbn [keys map fst In lookup]; [contradiction|].
  intros [-> | Hin].
  - rewrite String.eqb_refl. eexists. reflexivity.
  - destruct (String.eqb t t'); [eexists; reflexivity | apply IH; exact Hin].
Qed.

(** In debug mode the fragment is written through the object passed as
    [logger]; when that object is not a logger, as in [search], which passes
    its filter there, the function raises [AttributeError] for every
    filter, after the fragment is built. *)
Theorem attribute_based_filtering_tql_debug_logger :
  forall (v : view) (passed filter : filter_value) (w : list event),
    attribute_based_filtering_tql v (NotLogger passed) filter true w
    = (Err (AttributeError "warning"), w).
Proof.
  intros v passed f w. unfold attribute_based_filtering_tql, bind, lift.
  destruct f as [|d|n]; try reflexivity.
  destruct (tql_loop_ok d d "" (lookup_keys d)) as [s Hs]. rewrite Hs. reflexivity.
Qed.

(** ** Further properties of search *)

(** An execution option that is none of the three names ends the search at
    once with [ValueError]: nothing is logged and no collaborator is
    called. *)
Theorem search_invalid_exec_option :
  forall (B : Backend) (self : DeepLakeVectorStore) (prompt : option string)
         (embedding_function : option nat) (embedding : option embedding_t) (k : Z)
         (distance_metric : string) (query : option string) (filter : filter_value)
         (exec_option : option (option string)) (embedding_tensor : string)
         (w : list event),
    valid_exec_option (resolve_exec_option self exec_option) = false ->
    search self prompt embedding_function embedding k distance_metric query filter
           exec_option embedding_tensor w
    = (Err (ValueError
        "Invalid `exec_option` it should be either `python`, `compute_engine` or `tensor_db`."),
       w).
Proof.
  intros B self prompt ef emb k dm query f eo et w Hinvalid.
  unfold search. rewrite Hinvalid. reflexivity.
Qed.

Lemma search_invalid_exec_option_witness :
  @search null_backend (init [] None None None None None)
          (Some "p") None (Some tt) 4%Z "L2" None FNone (Some (Some "Python"))
          "embedding" []
  = (Err (ValueError
      "Invalid `exec_option` it should be either `python`, `compute_engine` or `tensor_db`."),
     []).
Proof.
  apply (@search_invalid_exec_option null_backend). reflexivity.
Defined.

(** With the option [python] a raw query string is never run: whatever the
    other arguments are, the search ends in an exception. *)
Theorem search_python_query_raises :
  forall (B : Backend) (self : DeepLakeVectorStore) (prompt : option string)
         (embedding_function : option nat) (embedding : option embedding_t) (k : Z)
         (distance_metric : string) (q : string) (filter : filter_value)
         (exec_option : option (option string)) (embedding_tensor : string)
         (w : list event),
    resolve_exec_option self exec_option = "python" ->
    exists e w',
      search self prompt embedding_function embedding k distance_metric (Some q)
             filter exec_option embedding_tensor w
      = (Err e, w').
Proof.
  intros B self prompt ef emb k dm q f eo et w Hpy.
  unfold search. rewrite Hpy. cbn [valid_exec_option existsb String.eqb orb negb].
  change (String.eqb "python" "python") with true. cbn [orb negb].
  apply bind_raises. intros query_emb w1.
  apply bind_raises. intros runtime w2.
  apply raise_raises.
Qed.

Lemma search_python_query_raises_witness :
  exists e w',
    @search null_backend (init [] None None None None None)
            None None (Some tt) 4%Z "L2" (Some "select * where true") FNone None
            "embedding" []
    = (Err e, w').
Proof.
  apply (@search_python_query_raises null_backend). reflexivity.
Defined.

(** The delegated search hands the engine an empty filter fragment for every
    filter: the filter is passed to [attribute_based_filtering_tql] in the
    position of the logger, so a dict filter is not translated and the
    ranking runs on the whole dataset. *)
Theorem search_delegated_empty_fragment :
  forall (B : Backend) (self : DeepLakeVectorStore) (prompt : option string)
         (embedding_function : option nat) (e : embedding_t) (k : Z)
         (distance_metric : string) (query : option string) (filter : filter_value)
         (exec_option : option (option string)) (embedding_tensor : string)
         (w : list event),
    resolve_exec_option self exec_option = "compute_engine"
    \/ resolve_exec_option self exec_option = "tensor_db" ->
    truthy_str query && truthy_filter filter = false ->
    search self prompt embedding_function (Some e) k distance_metric query filter
           exec_option embedding_tensor w
    = (query_embedding <- get_embedding (Some e) prompt embedding_function ;;
       runtime <- get_runtime_from_exec_option (resolve_exec_option self exec_option) ;;
       check_indra_installation (resolve_exec_option self exec_option)
                                _INDRA_INSTALLED ;;;
       vector_search query_embedding (lower distance_metric) (dataset self) k query
                     "" embedding_tensor runtime) w.
Proof.
  intros B self prompt ef e k dm query f eo et w Hopt Hboth.
  unfold search. rewrite type_of_never_Callable, Hboth.
  assert (Hvalid : valid_exec_option (resolve_exec_option self eo) = true)
    by (destruct Hopt as [-> | ->]; reflexivity).
  assert (Hpy : String.eqb (resolve_exec_option self eo) "python" = false)
    by (destruct Hopt as [-> | ->]; reflexivity).
  rewrite Hvalid, Hpy. cbn [negb].
  assert (Hemb : match ef, Some e with
                 | None, None =>
                     exact_text_search (dataset self) (atom_of_prompt prompt) ;;;
                     ret None
                 | _, _ => e' <- get_embedding (Some e) prompt ef ;; ret (Some e')
                 end = (e' <- get_embedding (Some e) prompt ef ;; ret (Some e')))
    by (destruct ef; reflexivity).
  rewrite Hemb. unfold bind.
  destruct (get_embedding (Some e) prompt ef w) as [[qe|err] w1]; cbn; [|reflexivity].
  destruct (get_runtime_from_exec_option _ w1) as [[rt|err] w2]; cbn; [|reflexivity].
  destruct (check_indra_installation _ _INDRA_INSTALLED w2) as [[u|err] w3];
    cbn; reflexivity.
Qed.

Lemma search_delegated_empty_fragment_witness :
  @search null_backend
     (init [(0, metadata_row "k" (AStr "v"))] None None None None None)
     None None (Some tt) 4%Z "L2" None (FDict [("metadata", [("k", AStr "w")])])
     (Some (Some "tensor_db")) "embedding" []
  = (Ok tt, []).
Proof.
  apply (@search_delegated_empty_fragment null_backend
           (init [(0, metadata_row "k" (AStr "v"))] None None None None None)
           None None tt 4%Z "L2" None (FDict [("metadata", [("k", AStr "w")])])
           (Some (Some "tensor_db")) "embedding" []).
  - right. reflexivity.
  - reflexivity.
Defined.

(** A delegated search with a raw query string and a filter, both not empty,
    is refused with [NotImplementedError]; the refusal comes after the query
    embedding and the runtime have been computed, and before the engine's
    installation is checked. *)
Theorem search_delegated_query_and_filter :
  forall (B : Backend) (self : DeepLakeVectorStore) (prompt : option string)
         (embedding_function : option nat) (e : embedding_t) (k : Z)
         (distance_metric : string) (query : option string) (filter : filter_value)
         (exec_option : option (option string)) (embedding_tensor : string)
         (w : list event),
    resolve_exec_option self exec_option = "compute_engine"
    \/ resolve_exec_option self exec_option = "tensor_db" ->
    truthy_str query = true -> truthy_filter filter = true ->
    search self prompt embedding_function (Some e) k distance_metric query filter
           exec_option embedding_tensor w
    = (get_embedding (Some e) prompt embedding_function ;;;
       get_runtime_from_exec_option (resolve_exec_option self exec_option) ;;;
       raise (NotImplementedError
                "query and filter parameters cannot be specified simultaneously.")) w.
Proof.
  intros B self prompt ef e k dm query f eo et w Hopt Hq Hf.
  unfold search. rewrite type_of_never_Callable, Hq, Hf.
  assert (Hvalid : valid_exec_option (resolve_exec_option self eo) = true)
    by (destruct Hopt as [-> | ->]; reflexivity).
  assert (Hpy : String.eqb (resolve_exec_option self eo) "python" = false)
    by (destruct Hopt as [-> | ->]; reflexivity).
  rewrite Hvalid, Hpy. cbn [negb andb].
  assert (Hemb : match ef, Some e with
                 | None, None =>
                     exact_text_search (dataset self) (atom_of_prompt prompt) ;;;
                     ret None
                 | _, _ => e' <- get_embedding (Some e) prompt ef ;; ret (Some e')
                 end = (e' <- get_embedding (Some e) prompt ef ;; ret (Some e')))
    by (destruct ef; reflexivity).
  rewrite Hemb. unfold bind.
  destruct (get_embedding (Some e) prompt ef w) as [[qe|err] w1]; cbn; [|reflexivity].
  destruct (get_runtime_from_exec_option _ w1) as [[rt|err] w2]; cbn; reflexivity.
Qed.

Lemma search_delegated_query_and_filter_witness :
  @search null_backend (init [] None None None None None)
     None None (Some tt) 4%Z "L2" (Some "select *")
     (FDict [("metadata", [("k", AStr "w")])])
     (Some (Some "compute_engine")) "embedding" []
  = (Err (NotImplementedError
            "query and filter parameters cannot be specified simultaneously."), []).
Proof.
  apply (@search_delegated_query_and_filter null_backend
           (init [] None None None None None)
           None None tt 4%Z "L2" (Some "select *")
           (FDict [("metadata", [("k", AStr "w")])])
           (Some (Some "compute_engine")) "embedding" []).
  - left. reflexivity.
  - reflexivity.
  - reflexivity.
Defined.

(** The local search with an embedding and a dict filter, on a dataset whose
    rows have a tensor and hold JSON objects where the filter looks: the
    embeddings are fetched for, and the ranking runs on, exactly the rows
    that match all key/value pairs, with the metric's name in lower case. *)
Theorem search_python_ranks_matching_rows :
  forall (B : Backend) (self : DeepLakeVectorStore) (prompt : option string)
         (embedding_function : option nat) (e : embedding_t) (k : Z)
         (distance_metric : string) (d : list (string * mapping))
         (exec_option : option (option string)) (embedding_tensor : string)
         (w : list event),
    resolve_exec_option self exec_option = "python" ->
    NoDup (keys d) ->
    Forall (fun ix => snd ix <> [] /\ cells_are_maps (snd ix) d) (dataset self) ->
    let matching := List.filter (fun ix => spec_row_matches (snd ix) d) (dataset self) in
    search self prompt embedding_function (Some e) k distance_metric None (FDict d)
           exec_option embedding_tensor w
    = (query_embedding <- get_embedding (Some e) prompt embedding_function ;;
       get_runtime_from_exec_option "python" ;;;
       embeddings <- fetch_embeddings "python" matching embedding_tensor ;;
       python_vector_search matching query_embedding embeddings
                            (lower distance_metric) k) w.
Proof.
  intros B self prompt ef e k dm d eo et w Hpy Hnd Hall matching.
  unfold search. rewrite Hpy.
  change (negb (valid_exec_option "python")) with false.
  change (String.eqb "python" "python") with true. cbn iota.
  rewrite (attribute_based_filtering_python_dict_rows B (dataset self) d Hnd Hall).
  fold matching.
  assert (Hemb : match ef, Some e with
                 | None, None =>
                     exact_text_search (dataset self) (atom_of_prompt prompt) ;;;
                     ret None
                 | _, _ => e' <- get_embedding (Some e) prompt ef ;; ret (Some e')
                 end = (e' <- get_embedding (Some e) prompt ef ;; ret (Some e')))
    by (destruct ef; reflexivity).
  rewrite Hemb. unfold bind, lift.
  destruct (get_embedding (Some e) prompt ef w) as [[qe|err] w1]; cbn; [|reflexivity].
  destruct (get_runtime_from_exec_option "python" w1) as [[rt|err] w2];
    cbn; [|reflexivity].
  destruct (fetch_embeddings "python" matching et w2) as [[embs|err] w3];
    cbn; reflexivity.
Qed.

Lemma search_python_ranks_matching_rows_witness :
  @search null_backend
     (init [(0, metadata_row "k" (AStr "v")); (1, metadata_row "k" (AStr "w"))]
           None None None None None)
     None None (Some tt) 4%Z "COS" None (FDict [("metadata", [("k", AStr "v")])])
     None "embedding" []
  = (Ok tt, []).
Proof.
  apply (@search_python_ranks_matching_rows null_backend
           (init [(0, metadata_row "k" (AStr "v")); (1, metadata_row "k" (AStr "w"))]
                 None None None None None)
           None None tt 4%Z "COS" [("metadata", [("k", AStr "v")])] None "embedding" []).
  - reflexivity.
  - repeat constructor. intros [].
  - repeat constructor; try discriminate;
      intros t items [Heq | []]; inversion Heq; eexists; reflexivity.
Defined.

(** ** delete *)

(** When everything is to be dropped, [delete] returns [True] with the
    dataset the storage left, and neither ids nor filter are looked at: no
    exclusion error is raised when both are given. *)
Theorem delete_all_skips_resolution :
  forall (B : Backend) (S : Storage) (self : DeepLakeVectorStore)
         (ids : option (list atom)) (filter : filter_value) (delete_all : option bool)
         (ds : view) (w w1 : list event),
    delete_all_samples_if_specified (dataset self) delete_all w = (Ok (ds, true), w1) ->
    delete self ids filter delete_all w = (Ok (set_dataset self ds, true), w1).
Proof.
  intros B S self ids f da ds w w1 Hdel. unfold delete, bind. rewrite Hdel. reflexivity.
Qed.

Lemma delete_all_skips_resolution_witness :
  @delete null_backend null_storage
     (init [(0, id_row "a")] None None None None None)
     (Some [AStr "a"]) (FDict [("metadata", [("k", AStr "v")])]) (Some true) []
  = (Ok (set_dataset (init [(0, id_row "a")] None None None None None) [], true), []).
Proof.
  apply (@delete_all_skips_resolution null_backend null_storage). reflexivity.
Defined.

(** When the dataset is not dropped, [delete] with a non-empty list of ids
    and a filter that is true raises the exclusion error, and [delete]
    with neither ids nor filter raises as well; in both cases no row is
    deleted: the call ends before [delete_and_commit]. *)
Theorem delete_rejects :
  forall (B : Backend) (S : Storage) (self : DeepLakeVectorStore)
         (delete_all : option bool) (ds : view) (w w1 : list event),
    delete_all_samples_if_specified (dataset self) delete_all w = (Ok (ds, false), w1) ->
    (forall id ids filter,
        truthy_filter filter = true ->
        delete self (Some (id :: ids)) filter delete_all w
        = (Err (ValueError "Either filter or ids should be specified."), w1))
    /\ delete self None FNone delete_all w
       = (Err (match ds with
               | [] => ValueError (filter_repr FNone ++ " does not exist in the dataset.")
               | _ :: _ => AttributeError "keys"
               end), w1).
Proof.
  intros B S self da ds w w1 Hdel. split.
  - intros id ids f Hf. unfold delete, bind. rewrite Hdel. cbn [set_dataset dataset].
    unfold get_converted_ids, lift. cbn [truthy_list andb]. rewrite Hf. reflexivity.
  - unfold delete, bind. rewrite Hdel. cbn [set_dataset dataset].
    unfold get_converted_ids, lift. cbn [truthy_list andb].
    unfold get_filtered_ids. destruct ds as [|[i x] ds]; reflexivity.
Qed.

Lemma delete_rejects_witness :
  @delete null_backend null_storage
     (init [(0, id_row "a")] None None None None None) None FNone None []
  = (Err (AttributeError "keys"), []).
Proof.
  apply (@delete_rejects null_backend null_storage
           (init [(0, id_row "a")] None None None None None) None
           [(0, id_row "a")] [] []).
  reflexivity.
Defined.

Lemma get_id_indices_found (dataset : view) (ids : list atom) :
  Forall (fun ix => has_ids (snd ix)) dataset ->
  List.length (filter (fun ix => id_requested ids (snd ix)) dataset) = List.length ids ->
  get_id_indices dataset ids
  = Ok (sample_indices (filter (fun ix => id_requested ids (snd ix)) dataset)).
Proof.
  intros Hall Hlen. unfold get_id_indices.
  rewrite (view_filter_ids ids dataset Hall). cbn [rbind].
  unfold sample_indices at 1. rewrite length_map, Hlen, Nat.eqb_refl. reflexivity.
Qed.

(** Deleting by ids, without a filter, on a dataset whose rows have an
    [ids] tensor and in which as many rows carry a requested id as ids are
    requested: [delete_and_commit] is given the indices of exactly these
    rows, the store then holds the dataset it leaves, and the call returns
    [True]. *)
Theorem delete_by_ids :
  forall (B : Backend) (S : Storage) (self : DeepLakeVectorStore)
         (id : atom) (ids : list atom) (delete_all : option bool)
         (ds : view) (w w1 : list event),
    delete_all_samples_if_specified (dataset self) delete_all w = (Ok (ds, false), w1) ->
    Forall (fun ix => has_ids (snd ix)) ds ->
    let found := List.filter (fun ix => id_requested (id :: ids) (snd ix)) ds in
    List.length found = List.length (id :: ids) ->
    delete self (Some (id :: ids)) FNone delete_all w
    = (ds' <- delete_and_commit ds (sample_indices found) ;;
       ret (set_dataset self ds', true)) w1.
Proof.
  intros B S self id ids da ds w w1 Hdel Hall found Hlen. unfold delete, bind.
  rewrite Hdel. cbn [set_dataset dataset]. unfold get_converted_ids, lift.
  cbn [truthy_list truthy_filter andb].
  rewrite (get_id_indices_found ds (id :: ids) Hall Hlen). fold found.
  destruct (delete_and_commit ds (sample_indices found) w1) as [[ds'|e] w2];
    reflexivity.
Qed.

Lemma delete_by_ids_witness :
  @delete null_backend null_storage
     (init [(0, id_row "a"); (1, id_row "c")] None None None None None)
     (Some [AStr "c"]) FNone None []
  = (Ok (set_dataset (init [(0, id_row "a"); (1, id_row "c")] None None None None None)
                     [(0, id_row "a")], true), []).
Proof.
  apply (@delete_by_ids null_backend null_storage
           (init [(0, id_row "a"); (1, id_row "c")] None None None None None)
           (AStr "c") [] None [(0, id_row "a"); (1, id_row "c")] [] []).
  - reflexivity.
  - repeat constructor; eexists; reflexivity.
  - reflexivity.
Defined.
